(** * moex_bonds.py: cash-flow schedule builder and yield-to-maturity solver

    A shallow embedding of [moex_bond_info] (the merge of the coupon,
    amortization and offer tables, lines 154-176) and of [moex_bond_yield]
    (lines 182-216) of [src/moex_bonds.py], then of [isin_secid]
    (lines 10-49) and of the instrument frame of [moex_bond_info]
    (lines 76-90 and 128-141).

    Conventions of the embedding.
    - Floating-point amounts are exact rationals ([Q], compared with [==]);
      NaN and None are the one missing value [NA].
    - A calendar day is its proleptic Gregorian ordinal ([date.toordinal]).
      The feed delivers ISO dates without a time of day, so a pandas
      Timestamp is the ordinal of its day.
    - A DataFrame is a heap object reached through a reference; a pandas
      operation that returns a new frame allocates, [df[col] = ...] writes
      in place.
    - [date.today()] reads the clock of the world, [print] appends to its
      standard output.
    - [pyxirr.xirr] and the builtin [float] on a string are not part of the
      repository: they are parameters of the development. *)

From Stdlib Require Import ZArith QArith Qround Qabs Bool List String Ascii Lia.
From Stdlib Require Import Sorting.Sorted Sorting.Permutation.
From Stdlib Require Import Reals Qreals Lra Lqa.
From Stdlib Require Import DecimalString.
From stdpp Require Import base list.
Import ListNotations.

Local Open Scope string_scope.
Local Open Scope Z_scope.

(** ** Values held by a DataFrame *)

(** A cell of an object column: a number, a string, or missing (None/NaN). *)
Inductive cell : Type :=
| Num (q : Q)
| Str (s : string)
| NA.

(** The [event_date] column: an ISO date string as the feed gives it, or a
    Timestamp once [pd.to_datetime] has converted it. Both carry the day. *)
Inductive date_cell : Type :=
| DateStr (d : Z)
| Timestamp (d : Z).

(** A row of [df_cf]: columns event_date, coupon, amt, offer, offer_type. *)
Record cf_row : Type := CfRow {
  event_date : date_cell;
  coupon : cell;
  amt : cell;
  offer : cell;
  offer_type : cell
}.

(** A row of [df_nfo]: the index label and the columns key and value. *)
Record nfo_row : Type := NfoRow {
  label : string;
  key : cell;
  value : cell
}.

(** The fill marker of [fillna('–')]: an en dash, bytes E2 80 93. *)
Definition dash : string :=
  String (ascii_of_nat 226) (String (ascii_of_nat 128) (String (ascii_of_nat 147) EmptyString)).

Definition cant_calculate : string := "Can't calculate YTM for the bond".
Definition missing_msg : string := "Face value or accrued interest is missing".

(** ** Exceptions, results, the world *)

Inductive exn : Type :=
| Exception (msg : string)       (* raise Exception(...), line 197 *)
| KeyError (lbl : string)        (* df_nfo.loc[...] on an absent label *)
| ValueError (text : string)     (* float() on a string that is no number *)
| TypeError                      (* float(None), None * 100, str + float *)
| AttributeError                 (* a frame method on an object of another kind *)
| InvalidPaymentsError           (* pyxirr's input validation *)
| LibraryError (name : string).  (* any other exception class of pyxirr *)

Inductive result (A : Type) : Type :=
| Ok (a : A)
| Raise (e : exn).
Arguments Ok {A} a.
Arguments Raise {A} e.

Definition loc := nat.

Inductive obj : Type :=
| CashFlows (rows : list cf_row)
| Info (rows : list nfo_row).

Record world : Type := World {
  clock : Z;                (* the day date.today() returns *)
  heap : list obj;          (* the objects alive, by reference *)
  stdout : list string      (* what has been printed *)
}.

(** State and exceptions: an exception keeps the world reached so far. *)
Definition M (A : Type) : Type := world -> result A * world.

Definition ret {A} (a : A) : M A := fun w => (Ok a, w).
Definition raise {A} (e : exn) : M A := fun w => (Raise e, w).
Definition bind {A B} (m : M A) (k : A -> M B) : M B :=
  fun w => match m w with
           | (Ok a, w') => k a w'
           | (Raise e, w') => (Raise e, w')
           end.

Notation "'do' x <- m ; k" := (bind m (fun x => k))
  (at level 10, x name, m at level 100, k at level 200).
Notation "'run' m ; k" := (bind m (fun _ => k))
  (at level 10, m at level 100, k at level 200).

(** [try: m except: print(msg); raise] *)
Definition try_print {A} (m : M A) (msg : string) : M A :=
  fun w => match m w with
           | (Ok a, w') => (Ok a, w')
           | (Raise e, w') =>
               (Raise e, World (clock w') (heap w') (stdout w' ++ [msg])%list)
           end.

Definition today : M Z := fun w => (Ok (clock w), w).

Definition alloc (o : obj) : M loc :=
  fun w => (Ok (length (heap w)), World (clock w) (heap w ++ [o])%list (stdout w)).

Definition get_cf (l : loc) : M (list cf_row) :=
  fun w => match heap w !! l with
           | Some (CashFlows rows) => (Ok rows, w)
           | _ => (Raise AttributeError, w)
           end.

Definition get_nfo (l : loc) : M (list nfo_row) :=
  fun w => match heap w !! l with
           | Some (Info rows) => (Ok rows, w)
           | _ => (Raise AttributeError, w)
           end.

Definition put_cf (l : loc) (rows : list cf_row) : M unit :=
  fun w => (Ok tt, World (clock w) (<[l := CashFlows rows]> (heap w)) (stdout w)).

(** ** pandas operations used by the solver *)

Definition isna (c : cell) : bool :=
  match c with NA => true | _ => false end.

(** One cell under [replace({'–': None})]. *)
Definition replace_cell (c : cell) : cell :=
  match c with
  | Str s => if String.eqb s dash then NA else Str s
  | _ => c
  end.

Definition replace_row (r : cf_row) : cf_row :=
  CfRow (event_date r) (replace_cell (coupon r)) (replace_cell (amt r))
        (replace_cell (offer r)) (replace_cell (offer_type r)).

(** [df.replace({'–': None})]: a new frame. *)
Definition df_replace (l : loc) : M loc :=
  do rows <- get_cf l ;
  alloc (CashFlows (List.map replace_row rows)).

(** [df['coupon'].isna().any()] *)
Definition coupon_isna_any (rows : list cf_row) : bool :=
  existsb (fun r => isna (coupon r)) rows.

(** [df[['offer', 'offer_type']].isna().all().all()] *)
Definition offers_isna_all (rows : list cf_row) : bool :=
  forallb (fun r => isna (offer r)) rows && forallb (fun r => isna (offer_type r)) rows.

(** [pd.to_datetime] on one entry of the date column. *)
Definition to_datetime (c : date_cell) : date_cell :=
  match c with
  | DateStr d => Timestamp d
  | Timestamp d => Timestamp d
  end.

Definition day_of (c : date_cell) : Z :=
  match c with DateStr d => d | Timestamp d => d end.

Definition set_event_date (r : cf_row) (c : date_cell) : cf_row :=
  CfRow c (coupon r) (amt r) (offer r) (offer_type r).

Definition convert_dates (rows : list cf_row) : list cf_row :=
  List.map (fun r => set_event_date r (to_datetime (event_date r))) rows.

(** [df['event_date'] = pd.to_datetime(df['event_date'])]: in place. *)
Definition df_convert_dates (l : loc) : M unit :=
  do rows <- get_cf l ;
  put_cf l (convert_dates rows).

(** [df[df['event_date'] > purchase_date]]: a new frame. *)
Definition after (purchase_date : Z) (r : cf_row) : bool :=
  purchase_date <? day_of (event_date r).

Definition df_filter_after (l : loc) (purchase_date : Z) : M loc :=
  do rows <- get_cf l ;
  alloc (CashFlows (List.filter (after purchase_date) rows)).

(** [df['event_date'].to_list()] *)
Definition event_dates (l : loc) : M (list Z) :=
  do rows <- get_cf l ;
  ret (List.map (fun r => day_of (event_date r)) rows).

(** A row sum with [skipna]: a missing cell is left out, a string cannot
    be added to a number. *)
Fixpoint sum_cells (cs : list cell) : result Q :=
  match cs with
  | [] => Ok 0%Q
  | c :: cs' =>
      match sum_cells cs' with
      | Raise e => Raise e
      | Ok s =>
          match c with
          | Num q => Ok (q + s)%Q
          | NA => Ok s
          | Str _ => Raise TypeError
          end
      end
  end.

Fixpoint sum_rows (rows : list cf_row) : result (list Q) :=
  match rows with
  | [] => Ok []
  | r :: rows' =>
      match sum_cells [coupon r; amt r] with
      | Raise e => Raise e
      | Ok s =>
          match sum_rows rows' with
          | Raise e => Raise e
          | Ok ss => Ok (s :: ss)
          end
      end
  end.

Definition lift {A} (r : result A) : M A := fun w => (r, w).

(** [df[['coupon', 'amt']].sum(axis=1).to_list()] *)
Definition coupon_amt_sums (l : loc) : M (list Q) :=
  do rows <- get_cf l ;
  lift (sum_rows rows).

(** [round(x, 2)]: to the nearest multiple of 1/100, ties to even. The
    rounding is that of the exact rational; Python rounds the double, which
    next to a tie can fall on the other side of it. *)
Definition round_half_even (x : Q) : Z :=
  let f := Qfloor x in
  match Qcompare (x - inject_Z f) (1 # 2) with
  | Lt => f
  | Gt => f + 1
  | Eq => if Z.even f then f else f + 1
  end.

Definition py_round2 (x : Q) : Q := Qmake (round_half_even (x * 100)) 100.

(** ** The outcome of the external root-finder *)

(** The exceptions [pyxirr.xirr] raises are classes of its own. *)
Inductive xirr_exn : Type :=
| InvalidPayments
| OtherError (name : string).

Inductive xirr_outcome : Type :=
| XRate (r : Q)             (* a float *)
| XNone                     (* None: no rate found *)
| XRaise (e : xirr_exn).    (* an exception *)

Definition exn_of_xirr (e : xirr_exn) : exn :=
  match e with
  | InvalidPayments => InvalidPaymentsError
  | OtherError name => LibraryError name
  end.

Section Solver.

(** [pyxirr.xirr(dates, amounts, day_count=DayCount.ACT_ACT_ISDA)] *)
Variable xirr : list Z -> list Q -> xirr_outcome.
(** the builtin [float] on a string *)
Variable py_float : string -> option Q.

Definition float (c : cell) : result Q :=
  match c with
  | Num q => Ok q
  | Str s => match py_float s with
             | Some q => Ok q
             | None => Raise (ValueError s)
             end
  | NA => Raise TypeError
  end.

(** [float(df_nfo.loc[lbl, 'value'])]: a label met once gives its value,
    a label never met is a KeyError, a label met several times gives a
    Series, which [float] refuses. *)
Definition lookup_value (rows : list nfo_row) (lbl : string) : result Q :=
  match List.filter (fun r => String.eqb (label r) lbl) rows with
  | [] => Raise (KeyError lbl)
  | [r] => float (value r)
  | _ => Raise TypeError
  end.

Definition loc_value (l : loc) (lbl : string) : M Q :=
  do rows <- get_nfo l ;
  lift (lookup_value rows lbl).

Definition call_xirr (dates : list Z) (amounts : list Q) : M Q :=
  match xirr dates amounts with
  | XRate r => ret r
  | XNone => raise TypeError          (* None * 100 *)
  | XRaise e => raise (exn_of_xirr e)
  end.

(** Lines 194-213: the checks and the two vectors handed to [xirr]. *)
Definition cash_flows (df_nfo df_cf : loc) (price : Q) : M (list Z * list Q) :=
  do df_cf <- df_replace df_cf ;
  do rows <- get_cf df_cf ;
  if coupon_isna_any rows || negb (offers_isna_all rows)
  then raise (Exception cant_calculate)
  else
    do ctx <- try_print
                (do purchase_date <- today ;
                 do facevalue <- loc_value df_nfo "FACEVALUE" ;
                 do accruedint <- loc_value df_nfo "ACCRUEDINT" ;
                 ret (purchase_date, facevalue, accruedint))
                missing_msg ;
    let '(purchase_date, facevalue, accruedint) := ctx in
    run df_convert_dates df_cf ;
    do df_cf <- df_filter_after df_cf purchase_date ;
    do dates <- event_dates df_cf ;
    let dates := ([purchase_date] ++ dates)%list in
    do amounts <- coupon_amt_sums df_cf ;
    let amounts := ([(- price / 100 * facevalue - accruedint)%Q] ++ amounts)%list in
    ret (dates, amounts).

(** Lines 182-216. *)
Definition moex_bond_yield (df_nfo df_cf : loc) (price : Q) : M Q :=
  do args <- cash_flows df_nfo df_cf price ;
  do r <- call_xirr (fst args) (snd args) ;
  ret (py_round2 (r * 100)).

End Solver.

(** ** The cash-flow frame of [moex_bond_info] (lines 154-176)

    The three tables after [reindex] and [rename]: a date column and the
    value columns. The date is the join key. *)

Definition coupons_frame := list (Z * cell).            (* event_date, coupon *)
Definition amt_frame := list (Z * cell).                (* event_date, amt *)
Definition offers_frame := list (Z * (cell * cell)).    (* event_date, offer, offer_type *)

Definition rows_at {A} (d : Z) (l : list (Z * A)) : list (Z * A) :=
  List.filter (fun r => fst r =? d) l.

Definition has_key {A} (d : Z) (l : list (Z * A)) : bool :=
  existsb (fun r => fst r =? d) l.

(** [left.merge(right, how='outer', on='event_date')]: every pair of rows
    with one date is a row; a row without a partner keeps its side and has
    missing values on the other. The order of the rows is settled by the
    [sort_values] that follows. *)
Definition merge_outer {A B} (na : A) (nb : B)
    (left : list (Z * A)) (right : list (Z * B)) : list (Z * (A * B)) :=
  (flat_map (fun l =>
     match rows_at (fst l) right with
     | [] => [(fst l, (snd l, nb))]
     | ms => List.map (fun r => (fst l, (snd l, snd r))) ms
     end) left
   ++ List.map (fun r => (fst r, (na, snd r)))
        (List.filter (fun r => negb (has_key (fst r) left)) right))%list.

(** [fillna('–')] *)
Definition fillna (c : cell) : cell :=
  match c with NA => Str dash | _ => c end.

Definition merged_row (m : Z * ((cell * cell) * (cell * cell))) : cf_row :=
  let '(d, ((c, a), (o, t))) := m in
  CfRow (DateStr d) (fillna c) (fillna a) (fillna o) (fillna t).

(** [sort_values(by='event_date')], as an insertion sort that keeps the
    order of rows of one date. *)
Fixpoint insert_row (r : cf_row) (l : list cf_row) : list cf_row :=
  match l with
  | [] => [r]
  | x :: l' =>
      if day_of (event_date r) <=? day_of (event_date x)
      then r :: x :: l'
      else x :: insert_row r l'
  end.

Definition sort_values (l : list cf_row) : list cf_row :=
  fold_right insert_row [] l.

Definition moex_bond_info (df_coupons : coupons_frame) (df_amt : amt_frame)
    (df_off : offers_frame) : list cf_row :=
  let df_cf := merge_outer NA NA df_coupons df_amt in
  let df_cf := merge_outer (NA, NA) (NA, NA) df_cf df_off in
  let df_cf := List.map merged_row df_cf in
  sort_values df_cf.

(** The day of an event. *)
Definition day (r : cf_row) : Z := day_of (event_date r).

(** The days of a schedule, in its order. *)
Definition days (rows : list cf_row) : list Z :=
  List.map (fun r => day_of (event_date r)) rows.

Definition on_day (d : Z) (r : cf_row) : bool :=
  day_of (event_date r) =? d.

(** The first value of a table at a date, missing when it has none. *)
Definition value_at {A} (na : A) (d : Z) (l : list (Z * A)) : A :=
  match rows_at d l with
  | [] => na
  | r :: _ => snd r
  end.

(** ** The claims' words about a schedule *)

(** A field is absent when it is missing or holds the fill marker. *)
Definition absent (c : cell) : bool :=
  match c with
  | NA => true
  | Str s => String.eqb s dash
  | Num _ => false
  end.

Definition present (c : cell) : bool := negb (absent c).

(** The amount of a field, zero when it holds none. *)
Definition amount (c : cell) : Q :=
  match c with Num q => q | _ => 0%Q end.

(** The events strictly after the purchase date. *)
Definition future_events (purchase_date : Z) (schedule : list cf_row) : list cf_row :=
  List.filter (fun e => purchase_date <? day_of (event_date e)) schedule.

(** [purchase_date] followed by the dates of the future events. *)
Definition timeline (purchase_date : Z) (schedule : list cf_row) : list Z :=
  purchase_date :: days (future_events purchase_date schedule).

(** [-(price/100 * face_value + accrued_interest)] followed by
    [coupon_amount + amortization_amount] of each future event. *)
Definition amounts_vector (purchase_date : Z) (schedule : list cf_row)
    (price face_value accrued_interest : Q) : list Q :=
  (- (price / 100 * face_value + accrued_interest))%Q
  :: List.map (fun e => (amount (coupon e) + amount (amt e))%Q)
       (future_events purchase_date schedule).

(** Some event carries an option price or an option type. *)
Definition has_option (schedule : list cf_row) : bool :=
  existsb (fun e => present (offer e) || present (offer_type e)) schedule.

(** Some event lacks its coupon amount. *)
Definition lacks_coupon (schedule : list cf_row) : bool :=
  existsb (fun e => absent (coupon e)) schedule.

(** Some event strictly after the purchase date lacks its coupon amount. *)
Definition future_lacks_coupon (purchase_date : Z) (schedule : list cf_row) : bool :=
  lacks_coupon (future_events purchase_date schedule).

(** ** Calendar *)

Definition is_leap (y : Z) : bool :=
  (y mod 4 =? 0) && (negb (y mod 100 =? 0) || (y mod 400 =? 0)).

Definition days_in_year (y : Z) : Z := if is_leap y then 366 else 365.

Definition days_before_year (y : Z) : Z :=
  let p := y - 1 in p * 365 + p / 4 - p / 100 + p / 400.

Definition days_before_month (y m : Z) : Z :=
  nth (Z.to_nat (m - 1)) [0; 31; 59; 90; 120; 151; 181; 212; 243; 273; 304; 334] 0
  + (if (2 <? m) && is_leap y then 1 else 0).

(** [date(y, m, d).toordinal()] *)
Definition ymd (y m d : Z) : Z :=
  days_before_year y + days_before_month y m + d.

(** The year of an ordinal, as [datetime._ord2ymd] finds it. *)
Definition year_of (n : Z) : Z :=
  let n := n - 1 in
  let n400 := n / 146097 in
  let n := n mod 146097 in
  let n100 := n / 36524 in
  let n := n mod 36524 in
  let n4 := n / 1461 in
  let n := n mod 1461 in
  let n1 := n / 365 in
  let year := n400 * 400 + 1 + n100 * 100 + n4 * 4 + n1 in
  if (n1 =? 4) || (n100 =? 4) then year - 1 else year.

(** The days of the interval from [d1] to [d2] that fall in year [y]. *)
Definition days_within (d1 d2 y : Z) : Z :=
  Z.max 0 (Z.min d2 (ymd (y + 1) 1 1) - Z.max d1 (ymd y 1 1)).

(** Modelled from the spec: the day count of the root-finder is in pyxirr.
    Actual/actual ISDA: over each calendar year spanned by the interval,
    the days of the interval in that year divided by the year's length. *)
Definition year_fraction (d1 d2 : Z) : Q :=
  let y1 := year_of d1 in
  let years := List.map (fun k => y1 + Z.of_nat k)
                 (seq 0 (Z.to_nat (year_of d2 - y1 + 1))) in
  fold_right Qplus 0%Q
    (List.map (fun y => days_within d1 d2 y # Z.to_pos (days_in_year y)) years).

(** ** The root-finder's contract *)

(** Modelled from the spec: the equation the root-finder solves, the sum
    of [amount_i / (1 + r)^t_i] with [t_i] the year fraction from the
    first date to the date of cash flow [i]. *)
Definition xnpv (dates : list Z) (amounts : list Q) (r : R) : R :=
  match dates with
  | [] => 0%R
  | d0 :: _ =>
      fold_right Rplus 0%R
        (List.map (fun da => (Q2R (snd da) / Rpower (1 + r) (Q2R (year_fraction d0 (fst da))))%R)
           (combine dates amounts))
  end.

Definition Qltb (x y : Q) : bool := negb (Qle_bool y x).

(** The payments hold a positive and a negative amount. *)
Definition both_signs (amounts : list Q) : bool :=
  existsb (fun a => Qltb 0 a) amounts && existsb (fun a => Qltb a 0) amounts.

(** pyxirr refuses payments that do not hold both signs. *)
Definition validates (xirr : list Z -> list Q -> xirr_outcome) : Prop :=
  forall dates amounts,
    both_signs amounts = false -> xirr dates amounts = XRaise InvalidPayments.

(** Modelled from the spec: the rate the root-finder returns is above
    -100% and leaves a net present value within the tolerance. *)
Definition meets_tolerance (tol : Q) (dates : list Z) (amounts : list Q) (r : Q) : Prop :=
  (-1 < Q2R r)%R /\ (Rabs (xnpv dates amounts (Q2R r)) <= Q2R tol)%R.

(** The root-finder finds such a rate for these payments, however the
    rationals are written. *)
Definition solves (xirr : list Z -> list Q -> xirr_outcome) (tol : Q)
    (dates : list Z) (amounts : list Q) : Prop :=
  forall amounts', Forall2 Qeq amounts' amounts ->
    exists r, xirr dates amounts' = XRate r /\ meets_tolerance tol dates amounts' r.

(** ** Stand-ins for the external functions, to run the model

    A root-finder that validates its payments as pyxirr does and solves
    the one-period case of length one year in closed form, and a reader of
    unsigned decimal numerals. *)

Definition xirr_one_period (dates : list Z) (amounts : list Q) : xirr_outcome :=
  if negb (both_signs amounts) then XRaise InvalidPayments
  else match dates, amounts with
       | [d0; d1], [a0; a1] =>
           if Qeq_bool (year_fraction d0 d1) 1 then XRate (- a1 / a0 - 1)%Q else XNone
       | _, _ => XNone
       end.

Definition digit (c : ascii) : option Z :=
  let n := Z.of_nat (nat_of_ascii c) in
  if (48 <=? n) && (n <=? 57) then Some (n - 48) else None.

(** The digits of [s] read from the left onto [acc]; the rest after them. *)
Fixpoint read_digits (s : string) (acc : Z) (n : nat) : Z * nat * string :=
  match s with
  | EmptyString => (acc, n, s)
  | String c s' =>
      match digit c with
      | Some k => read_digits s' (acc * 10 + k) (S n)
      | None => (acc, n, s)
      end
  end.

Definition decimal_float (s : string) : option Q :=
  let '(i, n, rest) := read_digits s 0 0 in
  match n, rest with
  | O, _ => None
  | _, EmptyString => Some (inject_Z i)
  | _, String c rest' =>
      if Ascii.eqb c "."%char then
        let '(f, k, tail) := read_digits rest' 0 0 in
        match k, tail with
        | O, _ => None
        | _, EmptyString => Some (inject_Z i + (f # Pos.pow 10 (Pos.of_nat k)))%Q
        | _, _ => None
        end
      else None
  end.

(** ** Worked inputs

    One bond: face value 1000, no accrued interest, and schedules around
    the redemption of 2025-01-01 (coupon 50, amortization 1000). *)

Definition example_nfo : list nfo_row :=
  [NfoRow "FACEVALUE" (Str "Face value") (Str "1000");
   NfoRow "ACCRUEDINT" (Str "Accrued interest") (Num 0)].

Definition redemption : cf_row :=
  CfRow (DateStr (ymd 2025 1 1)) (Num 50) (Num 1000) (Str dash) (Str dash).

(** The caller's two frames at references 0 and 1, on the day [today]. *)
Definition world_on (today : Z) (cf : list cf_row) : world :=
  World today [Info example_nfo; CashFlows cf] [].

(** A past amortization on a day without a coupon, before the redemption. *)
Definition past_amortization : cf_row :=
  CfRow (DateStr (ymd 2023 6 1)) (Str dash) (Num 200) (Str dash) (Str dash).

(** A coupon of mid 2024. *)
Definition mid_coupon : cf_row :=
  CfRow (DateStr (ymd 2024 7 1)) (Num 50) (Str dash) (Str dash) (Str dash).

(** The same two frames among other objects, at other references, after
    some output. *)
Definition crowded_world (today : Z) (cf : list cf_row) : world :=
  World today [CashFlows cf; CashFlows []; Info example_nfo] ["ticker"].

(** A past put offer on a coupon day. *)
Definition past_offer : cf_row :=
  CfRow (DateStr (ymd 2023 6 1)) (Num 50) (Str dash) (Num 100) (Str "Put").

(** ** [isin_secid] (lines 10-49)

    The ISS server and [str.upper] are not part of the repository: they
    are parameters. A call works on a session, the URLs requested so far
    and the lines printed so far. *)

(** A row of [data['securities']]: its columns isin and secid. *)
Record sec_row : Type := SecRow {
  isin : cell;
  secid : cell
}.

(** [requests.get(...)], [raise_for_status()] and [json()]: a
    RequestException, with its class and text, or the table of
    [data['securities']]. A reply of another shape is not modelled. *)
Inductive response : Type :=
| Fails (class text : string)
| Json (securities : list sec_row).

Record session : Type := Session {
  requested : list string;
  console : list string
}.

Inductive iss_exn : Type :=
| DirectionException (msg : string)          (* line 25 *)
| RequestException (class text : string).    (* re-raised at line 34 *)

Inductive outcome (A : Type) : Type :=
| Returns (v : A)
| Throws (e : iss_exn).
Arguments Returns {A} v.
Arguments Throws {A} e.

Definition direction_msg : string :=
  "Direction should be either 'isin2secid' or 'secid2isin'".

Definition securities_url (code : string) : string :=
  "https://iss.moex.com/iss/securities.json?q=" ++ code ++ "&iss.meta=off".

(** [direction not in ['isin2secid', 'secid2isin']] *)
Definition bad_direction (direction : option string) : bool :=
  match direction with
  | Some d => negb (String.eqb d "isin2secid" || String.eqb d "secid2isin")
  | None => true
  end.

(** One entry of [df[col] == code]. *)
Definition cell_is (code : string) (c : cell) : bool :=
  match c with
  | Str s => String.eqb s code
  | _ => false
  end.

(** [df.loc[df[key] == code, val].iat[0]], nothing when no row is
    selected (the IndexError the bare [except] catches). *)
Definition first_match (key val : sec_row -> cell) (code : string)
    (rows : list sec_row) : option cell :=
  match List.filter (fun r => cell_is code (key r)) rows with
  | [] => None
  | r :: _ => Some (val r)
  end.

Definition send (url : string) (s : session) : session :=
  Session (requested s ++ [url])%list (console s).

Definition print (line : string) (s : session) : session :=
  Session (requested s) (console s ++ [line])%list.

Section Iss.

(** the ISS server, seen through [requests] *)
Variable get : string -> response.
(** [str.upper] *)
Variable upper : string -> string.

(** The value returned is a cell of the table, or [NA] for Python's
    None when the function falls off its end. *)
Definition isin_secid (code : string) (direction : option string)
    (s : session) : outcome cell * session :=
  if bad_direction direction then (Throws (DirectionException direction_msg), s)
  else
    let code := upper code in
    let s := send (securities_url code) s in
    match get (securities_url code) with
    | Fails class text =>
        (Throws (RequestException class text), print (class ++ ": " ++ text) s)
    | Json df =>
        if match direction with Some d => String.eqb d "isin2secid" | None => false end
        then
          match first_match isin secid code df with
          | Some res => (Returns res, s)
          | None => (Returns NA, print ("No match for ISIN " ++ code) s)
          end
        else
          match first_match secid isin code df with
          | Some res => (Returns res, s)
          | None => (Returns NA, print ("No match for SECID " ++ code) s)
          end
    end.

End Iss.

(** ** The instrument frame of [moex_bond_info] (lines 128-141) *)

(** The labels of line 129-131, in their order. *)
Definition info_labels : list string :=
  ["SECID"; "ISIN"; "NAME"; "SHORTNAME"; "LISTLEVEL"; "ISQUALIFIEDINVESTORS";
   "ISSUESIZE"; "INITIALFACEVALUE"; "FACEUNIT"; "DAYSTOREDEMPTION"; "ISSUEDATE";
   "MATDATE"; "BUYBACKDATE"; "FACEVALUE"; "COUPONPERCENT"; "COUPONVALUE";
   "COUPONFREQUENCY"; "PREVWAPRICE"; "YIELDATPREVWAPRICE"; "ACCRUEDINT"; "VOLUME"].

(** The shorter titles of lines 134-140. *)
Definition short_titles : list (string * string) :=
  [("Бумаги для квалифицированных инвесторов", "Для квал. инвесторов");
   ("Первоначальная номинальная стоимость", "Первоначальная номн. стоимость");
   ("Дата к которой рассчитывается доходность", "Дата для расчета доходности");
   ("Сумма купона, в валюте номинала", "Сумма купона");
   ("Периодичность выплаты купона в год", "Купонов в год")].

(** One entry of [df_nfo['key'].replace({...})]. *)
Definition shorten (c : cell) : cell :=
  match c with
  | Str s =>
      match List.find (fun p => String.eqb (fst p) s) short_titles with
      | Some p => Str (snd p)
      | None => Str s
      end
  | _ => c
  end.

(** [index.is_unique] *)
Fixpoint unique (labels : list string) : bool :=
  match labels with
  | [] => true
  | x :: rest => negb (existsb (String.eqb x) rest) && unique rest
  end.

(** The row of a label in a frame of unique labels. *)
Definition row_of (lbl : string) (df : list nfo_row) : option nfo_row :=
  List.find (fun r => String.eqb (label r) lbl) df.

(** [df.reindex(labels, fill_value='–')]: a frame with two rows of one
    label cannot be reindexed (the text is that of pandas 1.4 and later). *)
Definition reindex (labels : list string) (df : list nfo_row) : result (list nfo_row) :=
  if unique (List.map label df)
  then Ok (List.map (fun lbl =>
             match row_of lbl df with
             | Some r => NfoRow lbl (key r) (value r)
             | None => NfoRow lbl (Str dash) (Str dash)
             end) labels)
  else Raise (ValueError "cannot reindex on an axis with duplicate labels").

(** Lines 128-141: [pd.concat], [reindex], the shorter titles, [fillna]. *)
Definition instrument_frame (df_nfo df_yld df_vol : list nfo_row) : result (list nfo_row) :=
  let df_nfo := (df_nfo ++ df_yld ++ df_vol)%list in
  match reindex info_labels df_nfo with
  | Raise e => Raise e
  | Ok df_nfo =>
      let df_nfo := List.map (fun r => NfoRow (label r) (shorten (key r)) (value r)) df_nfo in
      let df_nfo := List.map (fun r => NfoRow (label r) (fillna (key r)) (fillna (value r))) df_nfo in
      Ok df_nfo
  end.

(** What the feed delivered under a label, missing when it has none. *)
Definition delivered (lbl : string) (df : list nfo_row) : cell :=
  match row_of lbl df with
  | Some r => value r
  | None => NA
  end.

(** ** The description of [moex_bond_info] (lines 76-90)

    [rename], [set_index] and [drop] leave the index, the title and the
    value of each row of [res_nfo['description']]. The format
    [{:,.1f}] of line 90 is a parameter. *)

Definition no_data_msg (ticker : string) : string :=
  "Didn't receive any data for SECID " ++ ticker.

(** The labels of lines 87-88. *)
Definition excluded_labels : list string :=
  ["REGNUMBER"; "LATNAME"; "STARTDATEMOEX"; "PROGRAMREGISTRYNUMBER"; "COUPONDATE";
   "EVENINGSESSION"; "TYPENAME"; "GROUP"; "TYPE"; "GROUPNAME"; "EMITTER_ID"].

(** [~df_nfo.index.isin([...])] on one row *)
Definition kept (r : nfo_row) : bool :=
  negb (existsb (String.eqb (label r)) excluded_labels).

(** [df.at[lbl, 'value'] = v] on a frame that has the label *)
Definition set_value (lbl : string) (v : cell) (df : list nfo_row) : list nfo_row :=
  List.map (fun r => if String.eqb (label r) lbl
                     then NfoRow (label r) (key r) v else r) df.

Section Description.

Variable py_float : string -> option Q.
(** [f'{x:,.1f}'] *)
Variable format_1f : Q -> string.

Definition description_frame (ticker : string) (description : list nfo_row)
    : result (list nfo_row) :=
  match description with
  | [] => Raise (Exception (no_data_msg ticker))
  | _ =>
      let df_nfo := List.filter kept description in
      match lookup_value py_float df_nfo "ISSUESIZE" with
      | Raise e => Raise e
      | Ok issuesize =>
          match lookup_value py_float df_nfo "INITIALFACEVALUE" with
          | Raise e => Raise e
          | Ok initialfacevalue =>
              Ok (set_value "ISSUESIZE"
                    (Str (format_1f (issuesize * initialfacevalue / 1000000000)%Q
                          ++ " млрд"))
                    df_nfo)
          end
      end
  end.

(** Lines 76-90 and 128-141, with [df_yld] and [df_vol] as lines 92-126
    leave them. *)
Definition info_frame (ticker : string) (description df_yld df_vol : list nfo_row)
    : result (list nfo_row) :=
  match description_frame ticker description with
  | Raise e => Raise e
  | Ok df_nfo => instrument_frame df_nfo df_yld df_vol
  end.

End Description.

(** ** Further worked inputs *)

(** A world whose instrument frame has no row. *)
Definition no_info_world (today : Z) (cf : list cf_row) : world :=
  World today [Info []; CashFlows cf] [].

(** A coupon paid in 2023. *)
Definition old_coupon : cf_row :=
  CfRow (DateStr (ymd 2023 7 1)) (Num 50) (Str dash) (Str dash) (Str dash).

(** Two coupons, the redemption with the second, and a variant with an
    amortization on a day that has no coupon. *)
Definition example_coupons : coupons_frame :=
  [(ymd 2024 7 1, Num 50); (ymd 2025 1 1, Num 50)].

Definition example_amt : amt_frame := [(ymd 2025 1 1, Num 1000)].

Definition early_amt : amt_frame :=
  [(ymd 2024 3 1, Num 200); (ymd 2025 1 1, Num 800)].

(** ** Further notions of the solver *)

(** One of the two conversions of lines 201-202 raises. *)
Definition conversion_fails (py_float : string -> option Q) (nfo : list nfo_row) : bool :=
  match lookup_value py_float nfo "FACEVALUE" with
  | Raise _ => true
  | Ok _ =>
      match lookup_value py_float nfo "ACCRUEDINT" with
      | Raise _ => true
      | Ok _ => false
      end
  end.

(** ** Worked inputs of [isin_secid] and of the instrument frame *)

(** [str.upper] on ASCII letters. *)
Definition upper_ascii (c : ascii) : ascii :=
  let n := nat_of_ascii c in
  if (Nat.leb 97 n && Nat.leb n 122)%bool then ascii_of_nat (n - 32) else c.

Fixpoint ascii_upper (s : string) : string :=
  match s with
  | EmptyString => EmptyString
  | String c s' => String (upper_ascii c) (ascii_upper s')
  end.

(** A table of two rows, the first without an isin. *)
Definition example_securities : list sec_row :=
  [SecRow NA (Str "SU26219RMFS4-OLD");
   SecRow (Str "RU000A0JTK38") (Str "SU26219RMFS4")].

(** A server that knows one bond. *)
Definition example_server (url : string) : response :=
  if String.eqb url (securities_url "RU000A0JTK38") then Json example_securities
  else if String.eqb url (securities_url "SU26219RMFS4") then Json example_securities
  else if String.eqb url (securities_url "XS0000000000") then Json []
  else Fails "ConnectionError" "unreachable".

(** A feed that gives the accrued interest and no face value. *)
Definition feed_without_face_value : list nfo_row :=
  [NfoRow "ACCRUEDINT" (Str "Accrued interest") (Num 0);
   NfoRow "COUPONVALUE" (Str "Сумма купона, в валюте номинала") (Num 50)].

Definition built (r : result (list nfo_row)) : list nfo_row :=
  match r with
  | Ok out => out
  | Raise _ => []
  end.

(** The frame built from a feed at reference 0, a schedule at reference 1. *)
Definition built_world (today : Z) (feed : list nfo_row) (cf : list cf_row) : world :=
  World today [Info (built (instrument_frame feed [] [])); CashFlows cf] [].

(** One decimal without a thousands separator: [{:,.1f}] on amounts from
    zero to below one thousand. *)
Definition plain_1f (x : Q) : string :=
  let tenths := round_half_even (x * 10) in
  NilZero.string_of_int (Z.to_int (tenths / 10)) ++ "." ++
  NilZero.string_of_int (Z.to_int (tenths mod 10)).

(** A description of five rows, one of them dropped by lines 86-89. *)
Definition example_description : list nfo_row :=
  [NfoRow "SECID" (Str "Код ценной бумаги") (Str "SU26219RMFS4");
   NfoRow "REGNUMBER" (Str "Номер государственной регистрации") (Str "26219RMFS");
   NfoRow "ISSUESIZE" (Str "Объем выпуска") (Str "10000000");
   NfoRow "INITIALFACEVALUE" (Str "Первоначальная номинальная стоимость") (Str "1000");
   NfoRow "FACEVALUE" (Str "Номинальная стоимость") (Str "1000")].

(** * Facts *)

(** ** The heap *)

Lemma lookup_alloc (h : list obj) (o : obj) :
  (h ++ [o])%list !! length h = Some o.
Proof. by apply list_lookup_middle. Qed.

Lemma lookup_old (h : list obj) (o : obj) (l : loc) (x : obj) :
  h !! l = Some x -> (h ++ [o])%list !! l = Some x.
Proof.
  intros H. rewrite lookup_app_l; [done|]. by eapply lookup_lt_Some.
Qed.

Lemma insert_alloc (h : list obj) (o o' : obj) :
  <[length h := o']> (h ++ [o])%list = (h ++ [o'])%list.
Proof.
  rewrite insert_app_r_alt; [|lia]. by rewrite Nat.sub_diag.
Qed.

(** ** The steps of the monad *)

Lemma bind_ok {A B} (m : M A) (k : A -> M B) (w w' : world) (a : A) :
  m w = (Ok a, w') -> bind m k w = k a w'.
Proof. intros H. unfold bind. by rewrite H. Qed.

Lemma bind_raise {A B} (m : M A) (k : A -> M B) (w w' : world) (e : exn) :
  m w = (Raise e, w') -> bind m k w = (Raise e, w').
Proof. intros H. unfold bind. by rewrite H. Qed.

Lemma get_cf_run (w : world) (l : loc) (rows : list cf_row) :
  heap w !! l = Some (CashFlows rows) -> get_cf l w = (Ok rows, w).
Proof. intros H. unfold get_cf. by rewrite H. Qed.

Lemma get_nfo_run (w : world) (l : loc) (rows : list nfo_row) :
  heap w !! l = Some (Info rows) -> get_nfo l w = (Ok rows, w).
Proof. intros H. unfold get_nfo. by rewrite H. Qed.

Lemma df_replace_run (w : world) (l : loc) (rows : list cf_row) :
  heap w !! l = Some (CashFlows rows) ->
  df_replace l w =
    (Ok (length (heap w)),
     World (clock w) (heap w ++ [CashFlows (List.map replace_row rows)])%list (stdout w)).
Proof.
  intros H. unfold df_replace. by rewrite (bind_ok _ _ _ _ _ (get_cf_run _ _ _ H)).
Qed.

Lemma df_convert_dates_run (w : world) (l : loc) (rows : list cf_row) :
  heap w !! l = Some (CashFlows rows) ->
  df_convert_dates l w =
    (Ok tt, World (clock w) (<[l := CashFlows (convert_dates rows)]> (heap w)) (stdout w)).
Proof.
  intros H. unfold df_convert_dates.
  by rewrite (bind_ok _ _ _ _ _ (get_cf_run _ _ _ H)).
Qed.

Lemma df_filter_after_run (w : world) (l : loc) (rows : list cf_row) (d : Z) :
  heap w !! l = Some (CashFlows rows) ->
  df_filter_after l d w =
    (Ok (length (heap w)),
     World (clock w) (heap w ++ [CashFlows (List.filter (after d) rows)])%list (stdout w)).
Proof.
  intros H. unfold df_filter_after.
  by rewrite (bind_ok _ _ _ _ _ (get_cf_run _ _ _ H)).
Qed.

Lemma event_dates_run (w : world) (l : loc) (rows : list cf_row) :
  heap w !! l = Some (CashFlows rows) ->
  event_dates l w = (Ok (days rows), w).
Proof.
  intros H. unfold event_dates.
  by rewrite (bind_ok _ _ _ _ _ (get_cf_run _ _ _ H)).
Qed.

Lemma coupon_amt_sums_run (w : world) (l : loc) (rows : list cf_row) :
  heap w !! l = Some (CashFlows rows) ->
  coupon_amt_sums l w = (sum_rows rows, w).
Proof.
  intros H. unfold coupon_amt_sums.
  by rewrite (bind_ok _ _ _ _ _ (get_cf_run _ _ _ H)).
Qed.

Lemma loc_value_run (py_float : string -> option Q) (w : world) (l : loc)
    (rows : list nfo_row) (lbl : string) :
  heap w !! l = Some (Info rows) ->
  loc_value py_float l lbl w = (lookup_value py_float rows lbl, w).
Proof.
  intros H. unfold loc_value.
  by rewrite (bind_ok _ _ _ _ _ (get_nfo_run _ _ _ H)).
Qed.

(** ** The pandas steps in the claims' words *)

Lemma isna_replace_cell (c : cell) : isna (replace_cell c) = absent c.
Proof. destruct c as [q|s|]; simpl; try reflexivity. by destruct (String.eqb s dash). Qed.

Lemma coupon_isna_any_replace (cf : list cf_row) :
  coupon_isna_any (List.map replace_row cf) = lacks_coupon cf.
Proof.
  unfold coupon_isna_any, lacks_coupon.
  induction cf as [|r cf IH]; simpl; [reflexivity|].
  by rewrite isna_replace_cell, IH.
Qed.

Lemma offers_isna_all_replace (cf : list cf_row) :
  negb (offers_isna_all (List.map replace_row cf)) = has_option cf.
Proof.
  unfold offers_isna_all, has_option, present.
  induction cf as [|r cf IH]; simpl; [reflexivity|].
  rewrite <- IH, !isna_replace_cell.
  destruct (absent (offer r)), (absent (offer_type r)),
    (forallb (fun r => isna (offer r)) (List.map replace_row cf)),
    (forallb (fun r => isna (offer_type r)) (List.map replace_row cf));
    reflexivity.
Qed.

Lemma filter_after_convert_replace (d : Z) (cf : list cf_row) :
  List.filter (after d) (convert_dates (List.map replace_row cf)) =
  convert_dates (List.map replace_row (future_events d cf)).
Proof.
  unfold convert_dates, future_events, after.
  induction cf as [|r cf IH]; simpl; [reflexivity|].
  replace (day_of (to_datetime (event_date r))) with (day_of (event_date r))
    by (by destruct (event_date r)).
  destruct (d <? day_of (event_date r)); simpl; by rewrite IH.
Qed.

Lemma days_convert_replace (cf : list cf_row) :
  days (convert_dates (List.map replace_row cf)) = days cf.
Proof.
  unfold days, convert_dates.
  induction cf as [|r cf IH]; simpl; [reflexivity|].
  rewrite IH. by destruct (event_date r).
Qed.

(** The row sums of an accepted frame are coupon plus amortization, an
    absent amortization counting for zero. *)
Lemma sum_rows_amounts (cf : list cf_row) (sums : list Q) :
  lacks_coupon cf = false ->
  sum_rows (convert_dates (List.map replace_row cf)) = Ok sums ->
  Forall2 Qeq sums (List.map (fun e => (amount (coupon e) + amount (amt e))%Q) cf).
Proof.
  revert sums. induction cf as [|r cf IH]; intros sums Hc Hs.
  - simpl in Hs. injection Hs as <-. constructor.
  - simpl in Hc. apply orb_false_elim in Hc as [Hr Hc].
    cbn [convert_dates List.map sum_rows] in Hs. cbn [List.map].
    fold (convert_dates (List.map replace_row cf)) in Hs.
    destruct (sum_rows (convert_dates (List.map replace_row cf))) as [ss|e];
      cbn [set_event_date coupon amt replace_row sum_cells] in Hs.
    + destruct (coupon r) as [q|s|], (amt r) as [a|t|]; cbn in Hr, Hs;
        try discriminate;
        repeat match type of Hs with
               | context [String.eqb ?x dash] => destruct (String.eqb x dash)
               end;
        try discriminate; injection Hs as <-;
        (constructor; [cbn; ring | by apply IH]).
    + destruct (coupon r) as [q|s|], (amt r) as [a|t|]; cbn in Hr, Hs;
        repeat match type of Hs with
               | context [String.eqb ?x dash] => destruct (String.eqb x dash)
               end;
        discriminate.
Qed.

(** ** One run of the solver, step by step *)

Section SolverFacts.

Variable xirr : list Z -> list Q -> xirr_outcome.
Variable py_float : string -> option Q.

Lemma cash_flows_run (w : world) (l_nfo l_cf : loc)
    (nfo : list nfo_row) (cf : list cf_row) (price : Q) :
  heap w !! l_nfo = Some (Info nfo) ->
  heap w !! l_cf = Some (CashFlows cf) ->
  cash_flows py_float l_nfo l_cf price w =
    let cf1 := List.map replace_row cf in
    let w1 := World (clock w) (heap w ++ [CashFlows cf1])%list (stdout w) in
    let w1' := World (clock w) (heap w ++ [CashFlows cf1])%list
                 (stdout w ++ [missing_msg])%list in
    if coupon_isna_any cf1 || negb (offers_isna_all cf1)
    then (Raise (Exception cant_calculate), w1)
    else
      match lookup_value py_float nfo "FACEVALUE" with
      | Raise e => (Raise e, w1')
      | Ok facevalue =>
          match lookup_value py_float nfo "ACCRUEDINT" with
          | Raise e => (Raise e, w1')
          | Ok accruedint =>
              let cf2 := convert_dates cf1 in
              let cf3 := List.filter (after (clock w)) cf2 in
              let w3 := World (clock w)
                          ((heap w ++ [CashFlows cf2]) ++ [CashFlows cf3])%list
                          (stdout w) in
              match sum_rows cf3 with
              | Raise e => (Raise e, w3)
              | Ok sums =>
                  (Ok (clock w :: days cf3,
                       (- price / 100 * facevalue - accruedint)%Q :: sums), w3)
              end
          end
      end.
Proof.
  intros Hnfo Hcf. cbv zeta. unfold cash_flows.
  set (cf1 := List.map replace_row cf).
  set (w1 := World (clock w) (heap w ++ [CashFlows cf1])%list (stdout w)).
  rewrite (bind_ok _ _ _ _ _ (df_replace_run _ _ _ Hcf)). fold cf1 w1.
  assert (H1 : heap w1 !! length (heap w) = Some (CashFlows cf1))
    by apply lookup_alloc.
  assert (Hnfo1 : heap w1 !! l_nfo = Some (Info nfo))
    by (by apply lookup_old).
  rewrite (bind_ok _ _ _ _ _ (get_cf_run _ _ _ H1)).
  destruct (coupon_isna_any cf1 || negb (offers_isna_all cf1)); [reflexivity|].
  unfold bind at 1, try_print, bind at 1, today, bind at 1.
  rewrite (loc_value_run _ _ _ _ _ Hnfo1).
  destruct (lookup_value py_float nfo "FACEVALUE") as [fv|e]; [|reflexivity].
  unfold bind at 1. rewrite (loc_value_run _ _ _ _ _ Hnfo1).
  destruct (lookup_value py_float nfo "ACCRUEDINT") as [ai|e]; [|reflexivity].
  unfold ret at 1.
  rewrite (bind_ok _ _ _ _ _ (df_convert_dates_run _ _ _ H1)).
  change (heap w1) with (heap w ++ [CashFlows cf1])%list.
  change (clock w1) with (clock w). change (stdout w1) with (stdout w).
  rewrite insert_alloc.
  set (cf2 := convert_dates cf1).
  set (w2 := World (clock w) (heap w ++ [CashFlows cf2])%list (stdout w)).
  assert (H2 : heap w2 !! length (heap w) = Some (CashFlows cf2))
    by apply lookup_alloc.
  rewrite (bind_ok _ _ _ _ _ (df_filter_after_run _ _ _ _ H2)).
  set (cf3 := List.filter (after (clock w)) cf2).
  set (w3 := World (clock w2) (heap w2 ++ [CashFlows cf3])%list (stdout w2)).
  assert (H3 : heap w3 !! length (heap w2) = Some (CashFlows cf3))
    by apply lookup_alloc.
  rewrite (bind_ok _ _ _ _ _ (event_dates_run _ _ _ H3)).
  unfold bind at 1. rewrite (coupon_amt_sums_run _ _ _ H3).
  destruct (sum_rows cf3) as [sums|e]; reflexivity.
Qed.

(** The check of line 196 fires before [df_nfo] is read. *)
Lemma cash_flows_rejected (w : world) (l_nfo l_cf : loc) (cf : list cf_row) (price : Q) :
  heap w !! l_cf = Some (CashFlows cf) ->
  lacks_coupon cf || has_option cf = true ->
  cash_flows py_float l_nfo l_cf price w =
    (Raise (Exception cant_calculate),
     World (clock w) (heap w ++ [CashFlows (List.map replace_row cf)])%list (stdout w)).
Proof.
  intros Hcf Hcheck. unfold cash_flows.
  rewrite (bind_ok _ _ _ _ _ (df_replace_run _ _ _ Hcf)).
  set (w1 := World _ _ _).
  assert (H1 : heap w1 !! length (heap w) = Some (CashFlows (List.map replace_row cf)))
    by apply lookup_alloc.
  rewrite (bind_ok _ _ _ _ _ (get_cf_run _ _ _ H1)).
  by rewrite coupon_isna_any_replace, offers_isna_all_replace, Hcheck.
Qed.

(** What an accepted run hands to the root-finder. *)
Lemma cash_flows_accepted (w w' : world) (l_nfo l_cf : loc)
    (nfo : list nfo_row) (cf : list cf_row) (price : Q)
    (dates : list Z) (amounts : list Q) :
  heap w !! l_nfo = Some (Info nfo) ->
  heap w !! l_cf = Some (CashFlows cf) ->
  cash_flows py_float l_nfo l_cf price w = (Ok (dates, amounts), w') ->
  lacks_coupon cf = false /\ has_option cf = false /\
  exists face_value accrued_interest,
    lookup_value py_float nfo "FACEVALUE" = Ok face_value /\
    lookup_value py_float nfo "ACCRUEDINT" = Ok accrued_interest /\
    dates = timeline (clock w) cf /\
    Forall2 Qeq amounts
      (amounts_vector (clock w) cf price face_value accrued_interest).
Proof.
  intros Hnfo Hcf Hrun.
  rewrite (cash_flows_run _ _ _ _ _ _ Hnfo Hcf) in Hrun. cbv zeta in Hrun.
  rewrite coupon_isna_any_replace, offers_isna_all_replace in Hrun.
  destruct (lacks_coupon cf) eqn:Hc; [discriminate|].
  destruct (has_option cf) eqn:Ho; [discriminate|].
  cbn [orb] in Hrun.
  destruct (lookup_value py_float nfo "FACEVALUE") as [fv|e]; [|discriminate].
  destruct (lookup_value py_float nfo "ACCRUEDINT") as [ai|e]; [|discriminate].
  rewrite filter_after_convert_replace in Hrun.
  destruct (sum_rows _) as [sums|e] eqn:Hs; [|discriminate].
  injection Hrun as <- <- <-.
  split; [reflexivity|]. split; [reflexivity|].
  exists fv, ai. repeat split.
  - unfold timeline. by rewrite days_convert_replace.
  - unfold amounts_vector. constructor.
    + field.
    + apply sum_rows_amounts; [|exact Hs].
      unfold lacks_coupon, future_events in *.
      apply not_true_is_false. intros Hex.
      apply existsb_exists in Hex as (x & Hx & Hax).
      apply filter_In in Hx as [Hx _].
      assert (existsb (fun e => absent (coupon e)) cf = true)
        by (apply existsb_exists; eauto).
      congruence.
Qed.

(** Line 215 after lines 194-213. *)
Lemma moex_bond_yield_run (w : world) (l_nfo l_cf : loc) (price : Q) :
  moex_bond_yield xirr py_float l_nfo l_cf price w =
    match cash_flows py_float l_nfo l_cf price w with
    | (Ok args, w') =>
        match xirr (fst args) (snd args) with
        | XRate r => (Ok (py_round2 (r * 100)), w')
        | XNone => (Raise TypeError, w')
        | XRaise e => (Raise (exn_of_xirr e), w')
        end
    | (Raise e, w') => (Raise e, w')
    end.
Proof.
  unfold moex_bond_yield, bind at 1.
  destruct (cash_flows py_float l_nfo l_cf price w) as [[args|e] w']; [|reflexivity].
  unfold bind, call_xirr. by destruct (xirr (fst args) (snd args)).
Qed.

(** ** Where an exception can come from *)

Lemma lookup_value_raise (rows : list nfo_row) (lbl : string) (e : exn) :
  lookup_value py_float rows lbl = Raise e ->
  e = KeyError lbl \/ e = TypeError \/ exists s, e = ValueError s.
Proof.
  unfold lookup_value, float.
  destruct (List.filter _ rows) as [|r [|r' rest]].
  - intros [= <-]. by left.
  - destruct (value r) as [q|s|]; [discriminate| |intros [= <-]; right; by left].
    destruct (py_float s); [discriminate|]. intros [= <-]. right. right. by exists s.
  - intros [= <-]. right. by left.
Qed.

Lemma sum_cells_raise (cs : list cell) (e : exn) :
  sum_cells cs = Raise e -> e = TypeError.
Proof.
  induction cs as [|c cs IH]; simpl; [discriminate|].
  destruct (sum_cells cs) as [s|e']; [|intros [= <-]; by apply IH].
  destruct c; try discriminate. by intros [= <-].
Qed.

Lemma sum_rows_raise (rows : list cf_row) (e : exn) :
  sum_rows rows = Raise e -> e = TypeError.
Proof.
  induction rows as [|r rows IH]; cbn [sum_rows]; [discriminate|].
  destruct (sum_cells [coupon r; amt r]) as [s|e'] eqn:Hs.
  - destruct (sum_rows rows) as [ss|e'']; [discriminate|].
    intros [= <-]. by apply IH.
  - intros [= <-]. by apply sum_cells_raise in Hs.
Qed.

Lemma both_signs_one (a : Q) : both_signs [a] = false.
Proof.
  unfold both_signs, Qltb. cbn [existsb]. rewrite !orb_false_r.
  destruct (Qle_bool a 0) eqn:H1; [reflexivity|].
  destruct (Qle_bool 0 a) eqn:H2; [reflexivity|]. exfalso.
  destruct (Qlt_le_dec 0 a) as [Hlt|Hle].
  - apply Qlt_le_weak, Qle_bool_iff in Hlt. congruence.
  - apply Qle_bool_iff in Hle. congruence.
Qed.

Lemma future_lacks_coupon_lacks (d : Z) (cf : list cf_row) :
  future_lacks_coupon d cf = true -> lacks_coupon cf = true.
Proof.
  unfold future_lacks_coupon, lacks_coupon, future_events. intros H.
  apply existsb_exists in H as (x & Hx & Hax).
  apply filter_In in Hx as [Hx _]. apply existsb_exists. eauto.
Qed.

(** ** The solver's claims *)

(** C1: when lines 194-213 accept the frames, the dates handed to the
    root-finder are the purchase date followed by the dates of the events
    strictly after it, and the amounts are
    [-(price/100 * face_value + accrued_interest)] followed by coupon plus
    amortization of each such event, an absent amortization counting for
    zero; [moex_bond_yield] is the root-finder called on these two
    vectors. *)
Theorem C1_vectors_handed_to_xirr (w w' : world) (l_nfo l_cf : loc)
    (nfo : list nfo_row) (cf : list cf_row) (price : Q)
    (dates : list Z) (amounts : list Q) :
  heap w !! l_nfo = Some (Info nfo) ->
  heap w !! l_cf = Some (CashFlows cf) ->
  cash_flows py_float l_nfo l_cf price w = (Ok (dates, amounts), w') ->
  (exists face_value accrued_interest,
     lookup_value py_float nfo "FACEVALUE" = Ok face_value /\
     lookup_value py_float nfo "ACCRUEDINT" = Ok accrued_interest /\
     dates = timeline (clock w) cf /\
     Forall2 Qeq amounts
       (amounts_vector (clock w) cf price face_value accrued_interest)) /\
  moex_bond_yield xirr py_float l_nfo l_cf price w =
    match xirr dates amounts with
    | XRate r => (Ok (py_round2 (r * 100)), w')
    | XNone => (Raise TypeError, w')
    | XRaise e => (Raise (exn_of_xirr e), w')
    end.
Proof.
  intros Hnfo Hcf Hrun. split.
  - by destruct (cash_flows_accepted _ _ _ _ _ _ _ _ _ Hnfo Hcf Hrun) as (_ & _ & H).
  - by rewrite moex_bond_yield_run, Hrun.
Qed.

(** C2: a schedule in which some event, at any date, carries an option
    price or an option type makes the solve raise the exception of line
    197, so that no yield is returned. *)
Theorem C2_option_rejected (w : world) (l_nfo l_cf : loc)
    (cf : list cf_row) (price : Q) :
  heap w !! l_cf = Some (CashFlows cf) ->
  has_option cf = true ->
  exists w',
    moex_bond_yield xirr py_float l_nfo l_cf price w =
      (Raise (Exception cant_calculate), w').
Proof.
  intros Hcf Hopt. eexists.
  rewrite moex_bond_yield_run, (cash_flows_rejected _ _ _ _ _ Hcf); [reflexivity|].
  rewrite Hopt. apply orb_true_r.
Qed.

(** C3, as the code has it: the solve raises the exception of line 197
    exactly when some event of the schedule, at any date, lacks its coupon
    amount or carries an option field; an event after the purchase date
    that lacks its coupon amount is one such case. *)
Theorem C3_rejected_iff (w : world) (l_nfo l_cf : loc)
    (nfo : list nfo_row) (cf : list cf_row) (price : Q) :
  heap w !! l_nfo = Some (Info nfo) ->
  heap w !! l_cf = Some (CashFlows cf) ->
  (fst (moex_bond_yield xirr py_float l_nfo l_cf price w)
     = Raise (Exception cant_calculate)
   <-> lacks_coupon cf = true \/ has_option cf = true) /\
  (future_lacks_coupon (clock w) cf = true ->
   fst (moex_bond_yield xirr py_float l_nfo l_cf price w)
     = Raise (Exception cant_calculate)).
Proof.
  intros Hnfo Hcf.
  assert (Hrej : lacks_coupon cf = true \/ has_option cf = true ->
                 fst (moex_bond_yield xirr py_float l_nfo l_cf price w)
                   = Raise (Exception cant_calculate)).
  { intros H. rewrite moex_bond_yield_run, (cash_flows_rejected _ _ _ _ _ Hcf);
      [reflexivity|].
    destruct H as [-> | ->]; [reflexivity | apply orb_true_r]. }
  split; [split; [|exact Hrej]|].
  - rewrite moex_bond_yield_run, (cash_flows_run _ _ _ _ _ _ Hnfo Hcf). cbv zeta.
    rewrite coupon_isna_any_replace, offers_isna_all_replace.
    destruct (lacks_coupon cf); [by left|].
    destruct (has_option cf); [by right|]. cbn [orb].
    destruct (lookup_value py_float nfo "FACEVALUE") as [fv|e] eqn:Hfv.
    2:{ cbn. intros [= ->].
        apply lookup_value_raise in Hfv as [H|[H|[s H]]]; discriminate. }
    destruct (lookup_value py_float nfo "ACCRUEDINT") as [ai|e] eqn:Hai.
    2:{ cbn. intros [= ->].
        apply lookup_value_raise in Hai as [H|[H|[s H]]]; discriminate. }
    destruct (sum_rows _) as [sums|e] eqn:Hs.
    + cbn [fst snd]. destruct (xirr _ _) as [r| |[|name]]; cbn; discriminate.
    + cbn. intros [= ->]. apply sum_rows_raise in Hs. discriminate.
  - intros H. apply Hrej. left. by eapply future_lacks_coupon_lacks.
Qed.

(** C4: with no event after the purchase date the code has no branch of
    its own; it hands the root-finder the purchase date alone, with the
    purchase cost as the only payment. A root-finder that refuses payments
    without both signs, as pyxirr does, makes the solve raise: it returns
    no yield, no default and no zero, and for frames that pass lines
    194-205 the exception is pyxirr's InvalidPaymentsError. *)
Theorem C4_no_future_event_raises (w : world) (l_nfo l_cf : loc)
    (nfo : list nfo_row) (cf : list cf_row) (price : Q) :
  validates xirr ->
  heap w !! l_nfo = Some (Info nfo) ->
  heap w !! l_cf = Some (CashFlows cf) ->
  future_events (clock w) cf = [] ->
  exists e w',
    moex_bond_yield xirr py_float l_nfo l_cf price w = (Raise e, w') /\
    (lacks_coupon cf = false -> has_option cf = false ->
     (exists face_value, lookup_value py_float nfo "FACEVALUE" = Ok face_value) ->
     (exists accrued_interest,
        lookup_value py_float nfo "ACCRUEDINT" = Ok accrued_interest) ->
     e = InvalidPaymentsError).
Proof.
  intros Hval Hnfo Hcf Hnone.
  rewrite moex_bond_yield_run, (cash_flows_run _ _ _ _ _ _ Hnfo Hcf). cbv zeta.
  rewrite coupon_isna_any_replace, offers_isna_all_replace.
  destruct (lacks_coupon cf); [by eexists _, _; split; [reflexivity|]|].
  destruct (has_option cf); [by eexists _, _; split; [reflexivity|]|].
  cbn [orb].
  destruct (lookup_value py_float nfo "FACEVALUE") as [fv|e].
  2:{ eexists _, _. split; [reflexivity|]. by intros _ _ [? ?]. }
  destruct (lookup_value py_float nfo "ACCRUEDINT") as [ai|e].
  2:{ eexists _, _. split; [reflexivity|]. by intros _ _ _ [? ?]. }
  rewrite filter_after_convert_replace, Hnone. cbn [List.map convert_dates sum_rows days fst snd].
  rewrite (Hval _ _ (both_signs_one _)).
  eexists _, _. split; reflexivity.
Qed.

Lemma future_events_app (d : Z) (l1 l2 : list cf_row) :
  future_events d (l1 ++ l2) = (future_events d l1 ++ future_events d l2)%list.
Proof. apply List.filter_app. Qed.

Lemma future_events_cons (d : Z) (e : cf_row) (l : list cf_row) :
  future_events d (e :: l) =
    if d <? day_of (event_date e) then e :: future_events d l else future_events d l.
Proof. reflexivity. Qed.

(** C5: in an accepted run an event dated on the purchase date adds
    nothing to the two vectors, which are those of the schedule without
    it; an event dated one day later stands in both, at its place, with
    its coupon plus amortization. *)
Theorem C5_purchase_date_boundary (w w' : world) (l_nfo l_cf : loc)
    (nfo : list nfo_row) (pre post : list cf_row) (e : cf_row) (price : Q)
    (dates : list Z) (amounts : list Q) (face_value accrued_interest : Q) :
  heap w !! l_nfo = Some (Info nfo) ->
  heap w !! l_cf = Some (CashFlows (pre ++ e :: post)) ->
  lookup_value py_float nfo "FACEVALUE" = Ok face_value ->
  lookup_value py_float nfo "ACCRUEDINT" = Ok accrued_interest ->
  cash_flows py_float l_nfo l_cf price w = (Ok (dates, amounts), w') ->
  (day_of (event_date e) = clock w ->
   dates = timeline (clock w) (pre ++ post) /\
   Forall2 Qeq amounts
     (amounts_vector (clock w) (pre ++ post) price face_value accrued_interest)) /\
  (day_of (event_date e) = clock w + 1 ->
   dates = (timeline (clock w) pre
            ++ (clock w + 1) :: days (future_events (clock w) post))%list /\
   Forall2 Qeq amounts
     (amounts_vector (clock w) pre price face_value accrued_interest
      ++ (amount (coupon e) + amount (amt e))%Q
         :: List.map (fun x => (amount (coupon x) + amount (amt x))%Q)
              (future_events (clock w) post))%list).
Proof.
  intros Hnfo Hcf Hfv Hai Hrun.
  destruct (cash_flows_accepted _ _ _ _ _ _ _ _ _ Hnfo Hcf Hrun)
    as (_ & _ & fv & ai & Hfv' & Hai' & -> & Hamounts).
  assert (fv = face_value) as -> by congruence.
  assert (ai = accrued_interest) as -> by congruence.
  clear Hrun. unfold timeline, amounts_vector in *.
  rewrite future_events_app, future_events_cons in Hamounts.
  rewrite future_events_app, future_events_cons.
  split; intros Hday; rewrite Hday in *.
  - rewrite Z.ltb_irrefl in *. rewrite future_events_app. by split.
  - replace (clock w <? clock w + 1) with true in *
      by (symmetry; apply Z.ltb_lt; lia).
    unfold days in *. rewrite !List.map_app in *. cbn [List.map app] in *.
    rewrite Hday. by split.
Qed.

(** C8, as the code has it: on one day ([date.today()] is read from the
    world, it is no argument) the result is a function of the two frames
    and the price alone; the references, the other objects alive and what
    has been printed have no part in it. *)
Theorem C8_same_day_same_result (w1 w2 : world) (l_nfo1 l_cf1 l_nfo2 l_cf2 : loc)
    (nfo : list nfo_row) (cf : list cf_row) (price : Q) :
  heap w1 !! l_nfo1 = Some (Info nfo) ->
  heap w1 !! l_cf1 = Some (CashFlows cf) ->
  heap w2 !! l_nfo2 = Some (Info nfo) ->
  heap w2 !! l_cf2 = Some (CashFlows cf) ->
  clock w1 = clock w2 ->
  fst (moex_bond_yield xirr py_float l_nfo1 l_cf1 price w1) =
  fst (moex_bond_yield xirr py_float l_nfo2 l_cf2 price w2).
Proof.
  intros Hn1 Hc1 Hn2 Hc2 Hclock.
  rewrite !moex_bond_yield_run.
  rewrite (cash_flows_run _ _ _ _ _ _ Hn1 Hc1), (cash_flows_run _ _ _ _ _ _ Hn2 Hc2).
  cbv zeta. rewrite Hclock.
  destruct (coupon_isna_any _ || negb (offers_isna_all _)); [reflexivity|].
  destruct (lookup_value py_float nfo "FACEVALUE") as [fv|e]; [|reflexivity].
  destruct (lookup_value py_float nfo "ACCRUEDINT") as [ai|e]; [|reflexivity].
  destruct (sum_rows _) as [sums|e]; [|reflexivity].
  cbn [fst snd]. by destruct (xirr _ _).
Qed.

(** The heap after a run is the heap before it followed by the frames the
    run allocated. *)
Lemma moex_bond_yield_heap (w : world) (l_nfo l_cf : loc)
    (nfo : list nfo_row) (cf : list cf_row) (price : Q) :
  heap w !! l_nfo = Some (Info nfo) ->
  heap w !! l_cf = Some (CashFlows cf) ->
  exists fresh,
    heap (snd (moex_bond_yield xirr py_float l_nfo l_cf price w)) = (heap w ++ fresh)%list.
Proof.
  intros Hnfo Hcf.
  rewrite moex_bond_yield_run, (cash_flows_run _ _ _ _ _ _ Hnfo Hcf). cbv zeta.
  destruct (coupon_isna_any _ || negb (offers_isna_all _)); [by eexists|].
  destruct (lookup_value py_float nfo "FACEVALUE") as [fv|e]; [|by eexists].
  destruct (lookup_value py_float nfo "ACCRUEDINT") as [ai|e]; [|by eexists].
  destruct (sum_rows _) as [sums|e].
  - cbn [fst snd]. destruct (xirr _ _); cbn [snd heap];
      rewrite <- app_assoc; by eexists.
  - cbn [snd heap]. rewrite <- app_assoc. by eexists.
Qed.

(** C10: whatever the run returns or raises, the caller's two frames, and
    every other object alive before the call, are afterwards what they
    were: the replacement, the date conversion and the filter work on
    frames the run allocated. *)
Theorem C10_inputs_unchanged (w : world) (l_nfo l_cf : loc)
    (nfo : list nfo_row) (cf : list cf_row) (price : Q) :
  heap w !! l_nfo = Some (Info nfo) ->
  heap w !! l_cf = Some (CashFlows cf) ->
  heap (snd (moex_bond_yield xirr py_float l_nfo l_cf price w)) !! l_nfo
    = Some (Info nfo) /\
  heap (snd (moex_bond_yield xirr py_float l_nfo l_cf price w)) !! l_cf
    = Some (CashFlows cf) /\
  (forall (l : loc) (o : obj),
     heap w !! l = Some o ->
     heap (snd (moex_bond_yield xirr py_float l_nfo l_cf price w)) !! l = Some o) /\
  clock (snd (moex_bond_yield xirr py_float l_nfo l_cf price w)) = clock w.
Proof.
  intros Hnfo Hcf.
  destruct (moex_bond_yield_heap _ _ _ _ _ price Hnfo Hcf) as [fresh Hheap].
  assert (Hold : forall (l : loc) (o : obj), heap w !! l = Some o ->
            heap (snd (moex_bond_yield xirr py_float l_nfo l_cf price w)) !! l = Some o).
  { intros l o Hl. rewrite Hheap, lookup_app_l; [done|]. by eapply lookup_lt_Some. }
  repeat split; auto.
  rewrite moex_bond_yield_run, (cash_flows_run _ _ _ _ _ _ Hnfo Hcf). cbv zeta.
  destruct (coupon_isna_any _ || negb (offers_isna_all _)); [reflexivity|].
  destruct (lookup_value py_float nfo "FACEVALUE") as [fv|e]; [|reflexivity].
  destruct (lookup_value py_float nfo "ACCRUEDINT") as [ai|e]; [|reflexivity].
  destruct (sum_rows _) as [sums|e]; [|reflexivity].
  cbn [fst snd]. by destruct (xirr _ _).
Qed.

End SolverFacts.

(** ** The claims on the worked inputs *)

Lemma xirr_one_period_validates : validates xirr_one_period.
Proof.
  intros dates amounts H. unfold xirr_one_period. by rewrite H.
Defined.

(** C1 on the redemption schedule bought on 2024-01-01 at 100. *)
Lemma C1_witness :
  exists dates amounts w',
    cash_flows decimal_float 0%nat 1%nat 100
      (world_on (ymd 2024 1 1) [redemption]) = (Ok (dates, amounts), w') /\
    dates = [ymd 2024 1 1; ymd 2025 1 1] /\
    Forall2 Qeq amounts [(- (1000))%Q; 1050%Q].
Proof.
  eexists _, _, _. split; [vm_compute; reflexivity|].
  destruct (C1_vectors_handed_to_xirr xirr_one_period decimal_float
              (world_on (ymd 2024 1 1) [redemption])
              (snd (cash_flows decimal_float 0%nat 1%nat 100
                      (world_on (ymd 2024 1 1) [redemption])))
              0%nat 1%nat example_nfo [redemption] 100
              [738886; 739252] [(-100000 # 100)%Q; (1050 # 1)%Q]
              eq_refl eq_refl eq_refl)
    as [(fv & ai & Hfv & Hai & Hd & Ha) _].
  split; [exact Hd|].
  repeat constructor; reflexivity.
Defined.

(** C2 on a schedule with a past put offer. *)
Lemma C2_witness :
  exists w',
    moex_bond_yield xirr_one_period decimal_float 0%nat 1%nat 100
      (world_on (ymd 2024 1 1) [past_offer; redemption])
    = (Raise (Exception cant_calculate), w').
Proof.
  exact (C2_option_rejected xirr_one_period decimal_float
           (world_on (ymd 2024 1 1) [past_offer; redemption])
           0%nat 1%nat [past_offer; redemption] 100 eq_refl eq_refl).
Defined.

(** C3 as stated fails on a schedule whose one missing coupon is on a
    past day: bought on 2024-01-01, the schedule of the amortization of
    2023-06-01 (no coupon that day) and the redemption of 2025-01-01 is
    rejected at line 196, although every event after the purchase date
    has its coupon. *)
Lemma C3_counterexample :
  fst (moex_bond_yield xirr_one_period decimal_float 0%nat 1%nat 100
         (world_on (ymd 2024 1 1) [past_amortization; redemption]))
    = Raise (Exception cant_calculate) /\
  future_lacks_coupon (ymd 2024 1 1) [past_amortization; redemption] = false.
Proof. split; vm_compute; reflexivity. Qed.

(** C3, as the code has it, on the same schedule. *)
Lemma C3_witness :
  (fst (moex_bond_yield xirr_one_period decimal_float 0%nat 1%nat 100
          (world_on (ymd 2024 1 1) [past_amortization; redemption]))
     = Raise (Exception cant_calculate)
   <-> lacks_coupon [past_amortization; redemption] = true
       \/ has_option [past_amortization; redemption] = true) /\
  (future_lacks_coupon (ymd 2024 1 1) [past_amortization; redemption] = true ->
   fst (moex_bond_yield xirr_one_period decimal_float 0%nat 1%nat 100
          (world_on (ymd 2024 1 1) [past_amortization; redemption]))
     = Raise (Exception cant_calculate)).
Proof.
  exact (C3_rejected_iff xirr_one_period decimal_float
           (world_on (ymd 2024 1 1) [past_amortization; redemption])
           0%nat 1%nat example_nfo [past_amortization; redemption] 100
           eq_refl eq_refl).
Defined.

(** C4 on the day of the redemption: the one event is not after the
    purchase date. *)
Lemma C4_witness :
  exists e w',
    moex_bond_yield xirr_one_period decimal_float 0%nat 1%nat 100
      (world_on (ymd 2025 1 1) [redemption]) = (Raise e, w') /\
    (lacks_coupon [redemption] = false -> has_option [redemption] = false ->
     (exists face_value,
        lookup_value decimal_float example_nfo "FACEVALUE" = Ok face_value) ->
     (exists accrued_interest,
        lookup_value decimal_float example_nfo "ACCRUEDINT" = Ok accrued_interest) ->
     e = InvalidPaymentsError).
Proof.
  exact (C4_no_future_event_raises xirr_one_period decimal_float
           (world_on (ymd 2025 1 1) [redemption])
           0%nat 1%nat example_nfo [redemption] 100
           xirr_one_period_validates eq_refl eq_refl eq_refl).
Defined.

(** C5 on the schedule of the coupon of 2024-07-01 and the redemption:
    bought on 2024-07-01 the coupon is left out, bought on 2024-06-30 it
    is in. *)
Lemma C5_witness :
  ([ymd 2024 7 1; ymd 2025 1 1] = timeline (ymd 2024 7 1) ([] ++ [redemption]) /\
   Forall2 Qeq [(-100000 # 100)%Q; (1050 # 1)%Q]
     (amounts_vector (ymd 2024 7 1) ([] ++ [redemption]) 100 1000 0)) /\
  ([ymd 2024 6 30; ymd 2024 7 1; ymd 2025 1 1] =
     (timeline (ymd 2024 6 30) []
      ++ (ymd 2024 6 30 + 1) :: days (future_events (ymd 2024 6 30) [redemption]))%list /\
   Forall2 Qeq [(-100000 # 100)%Q; (50 # 1)%Q; (1050 # 1)%Q]
     (amounts_vector (ymd 2024 6 30) [] 100 1000 0
      ++ (amount (coupon mid_coupon) + amount (amt mid_coupon))%Q
         :: List.map (fun x => (amount (coupon x) + amount (amt x))%Q)
              (future_events (ymd 2024 6 30) [redemption]))%list).
Proof.
  split.
  - exact (proj1 (C5_purchase_date_boundary decimal_float
             (world_on (ymd 2024 7 1) [mid_coupon; redemption])
             (snd (cash_flows decimal_float 0%nat 1%nat 100
                     (world_on (ymd 2024 7 1) [mid_coupon; redemption])))
             0%nat 1%nat example_nfo [] [redemption] mid_coupon 100
             [738886 + 182; 739252] [(-100000 # 100)%Q; (1050 # 1)%Q] 1000 0
             eq_refl eq_refl eq_refl eq_refl eq_refl) eq_refl).
  - exact (proj2 (C5_purchase_date_boundary decimal_float
             (world_on (ymd 2024 6 30) [mid_coupon; redemption])
             (snd (cash_flows decimal_float 0%nat 1%nat 100
                     (world_on (ymd 2024 6 30) [mid_coupon; redemption])))
             0%nat 1%nat example_nfo [] [redemption] mid_coupon 100
             [738886 + 181; 738886 + 182; 739252]
             [(-100000 # 100)%Q; (50 # 1)%Q; (1050 # 1)%Q] 1000 0
             eq_refl eq_refl eq_refl eq_refl eq_refl) eq_refl).
Defined.

(** C8 as stated fails: the same two frames and the same price give 5.00
    on 2024-01-01 and an exception on 2025-01-01, the day [date.today()]
    returns being read inside the call. *)
Lemma C8_counterexample :
  fst (moex_bond_yield xirr_one_period decimal_float 0%nat 1%nat 100
         (world_on (ymd 2024 1 1) [redemption])) = Ok (500 # 100)%Q /\
  fst (moex_bond_yield xirr_one_period decimal_float 0%nat 1%nat 100
         (world_on (ymd 2025 1 1) [redemption])) = Raise InvalidPaymentsError.
Proof. split; vm_compute; reflexivity. Qed.

(** The two days differ already in what the root-finder is given. *)
Example clock_is_an_input :
  fst (cash_flows decimal_float 0%nat 1%nat 100 (world_on (ymd 2024 1 1) [redemption]))
    = Ok ([ymd 2024 1 1; ymd 2025 1 1], [(-100000 # 100)%Q; (1050 # 1)%Q]) /\
  fst (cash_flows decimal_float 0%nat 1%nat 100 (world_on (ymd 2025 1 1) [redemption]))
    = Ok ([ymd 2025 1 1], [(-100000 # 100)%Q]).
Proof. split; vm_compute; reflexivity. Qed.

(** C8, as the code has it: one day, two worlds. *)
Lemma C8_witness :
  fst (moex_bond_yield xirr_one_period decimal_float 0%nat 1%nat 100
         (world_on (ymd 2024 1 1) [redemption])) =
  fst (moex_bond_yield xirr_one_period decimal_float 2%nat 0%nat 100
         (crowded_world (ymd 2024 1 1) [redemption])).
Proof.
  exact (C8_same_day_same_result xirr_one_period decimal_float
           (world_on (ymd 2024 1 1) [redemption])
           (crowded_world (ymd 2024 1 1) [redemption])
           0%nat 1%nat 2%nat 0%nat example_nfo [redemption] 100
           eq_refl eq_refl eq_refl eq_refl eq_refl).
Defined.

(** C10 on the redemption schedule, for a run that returns and for a run
    that raises. *)
Lemma C10_witness :
  (heap (snd (moex_bond_yield xirr_one_period decimal_float 0%nat 1%nat 100
                (world_on (ymd 2024 1 1) [redemption]))) !! 1%nat
     = Some (CashFlows [redemption])) /\
  (heap (snd (moex_bond_yield xirr_one_period decimal_float 0%nat 1%nat 100
                (world_on (ymd 2025 1 1) [redemption]))) !! 1%nat
     = Some (CashFlows [redemption])).
Proof.
  split.
  - exact (proj1 (proj2 (C10_inputs_unchanged xirr_one_period decimal_float
             (world_on (ymd 2024 1 1) [redemption])
             0%nat 1%nat example_nfo [redemption] 100 eq_refl eq_refl))).
  - exact (proj1 (proj2 (C10_inputs_unchanged xirr_one_period decimal_float
             (world_on (ymd 2025 1 1) [redemption])
             0%nat 1%nat example_nfo [redemption] 100 eq_refl eq_refl))).
Defined.

(** * The cash-flow frame of the builder *)

(** ** Rows of one date *)

Lemma rows_at_app {A} (d : Z) (l1 l2 : list (Z * A)) :
  rows_at d (l1 ++ l2) = (rows_at d l1 ++ rows_at d l2)%list.
Proof. apply List.filter_app. Qed.

Lemma rows_at_cons {A} (d : Z) (x : Z * A) (l : list (Z * A)) :
  rows_at d (x :: l) = if fst x =? d then x :: rows_at d l else rows_at d l.
Proof. reflexivity. Qed.

Lemma rows_at_key {A} (d : Z) (l : list (Z * A)) (r : Z * A) :
  In r (rows_at d l) -> fst r = d.
Proof.
  unfold rows_at. intros H. apply filter_In in H as [_ H]. by apply Z.eqb_eq.
Qed.

Lemma rows_at_head_key {A} (d : Z) (l rest : list (Z * A)) (r : Z * A) :
  rows_at d l = r :: rest -> fst r = d.
Proof.
  intros H. apply (rows_at_key d l). rewrite H. by left.
Qed.

(** A list whose rows all carry the key [k]. *)
Lemma rows_at_one_key {A} (d k : Z) (l : list (Z * A)) :
  (forall r, In r l -> fst r = k) ->
  rows_at d l = if k =? d then l else [].
Proof.
  intros Hk. induction l as [|x l IH].
  - by destruct (k =? d).
  - rewrite rows_at_cons, IH by (intros r Hr; apply Hk; by right).
    rewrite (Hk x) by (by left). by destruct (k =? d).
Qed.

Lemma has_key_rows_at {A} (d : Z) (l : list (Z * A)) :
  has_key d l = match rows_at d l with [] => false | _ => true end.
Proof.
  unfold has_key, rows_at. induction l as [|x l IH]; cbn; [reflexivity|].
  destruct (fst x =? d); [reflexivity | exact IH].
Qed.

Lemma has_key_In {A} (d : Z) (l : list (Z * A)) :
  has_key d l = true <-> In d (List.map fst l).
Proof.
  unfold has_key. rewrite existsb_exists, in_map_iff. split.
  - intros (x & Hx & Hd). exists x. split; [by apply Z.eqb_eq | done].
  - intros (x & Hd & Hx). exists x. split; [done | by apply Z.eqb_eq].
Qed.

Lemma rows_at_NoDup {A} (d : Z) (l : list (Z * A)) :
  List.NoDup (List.map fst l) -> (length (rows_at d l) <= 1)%nat.
Proof.
  induction l as [|x l IH]; [cbn; lia|].
  cbn [List.map]. rewrite rows_at_cons.
  intros Hnd. apply NoDup_cons_iff in Hnd as [Hx Hnd].
  destruct (fst x =? d) eqn:Hxd; [|by apply IH].
  apply Z.eqb_eq in Hxd. subst d.
  destruct (rows_at (fst x) l) as [|y rest] eqn:Hrows; [cbn; lia|].
  exfalso. apply Hx. apply has_key_In. by rewrite has_key_rows_at, Hrows.
Qed.

(** ** The outer merge, date by date *)

Section Merge.

Context {A B : Type} (na : A) (nb : B).

(** The rows a left row gives, and the row a right row alone gives. *)
Let left_rows (right : list (Z * B)) (l : Z * A) : list (Z * (A * B)) :=
  match rows_at (fst l) right with
  | [] => [(fst l, (snd l, nb))]
  | ms => List.map (fun r => (fst l, (snd l, snd r))) ms
  end.

Let right_row (r : Z * B) : Z * (A * B) := (fst r, (na, snd r)).

Lemma left_rows_key (right : list (Z * B)) (l : Z * A) (m : Z * (A * B)) :
  In m (left_rows right l) -> fst m = fst l.
Proof.
  unfold left_rows. destruct (rows_at (fst l) right) as [|y ms].
  - intros [<-|[]]. reflexivity.
  - intros H. apply in_map_iff in H as (r & <- & _). reflexivity.
Qed.

Lemma rows_at_left (d : Z) (left : list (Z * A)) (right : list (Z * B)) :
  rows_at d (flat_map (left_rows right) left) =
  flat_map (left_rows right) (rows_at d left).
Proof.
  induction left as [|x left IH]; [reflexivity|].
  cbn [flat_map]. rewrite rows_at_app, IH, rows_at_cons.
  rewrite (rows_at_one_key d (fst x)) by apply left_rows_key.
  destruct (fst x =? d); reflexivity.
Qed.

Lemma rows_at_right (d : Z) (left : list (Z * A)) (right : list (Z * B)) :
  rows_at d (List.map right_row
               (List.filter (fun r => negb (has_key (fst r) left)) right)) =
  if has_key d left then [] else List.map right_row (rows_at d right).
Proof.
  induction right as [|y right IH].
  - by destruct (has_key d left).
  - cbn [List.filter]. rewrite rows_at_cons.
    destruct (fst y =? d) eqn:Hyd.
    + apply Z.eqb_eq in Hyd. subst d.
      destruct (has_key (fst y) left) eqn:Hk; cbn [negb]; [exact IH|].
      cbn [List.map]. rewrite rows_at_cons. cbn [right_row fst].
      by rewrite Z.eqb_refl, IH.
    + destruct (has_key (fst y) left); cbn [negb]; [exact IH|].
      cbn [List.map]. rewrite rows_at_cons. cbn [right_row fst].
      by rewrite Hyd.
Qed.

Lemma rows_at_merge (d : Z) (left : list (Z * A)) (right : list (Z * B)) :
  rows_at d (merge_outer na nb left right) =
  (flat_map (left_rows right) (rows_at d left)
   ++ if has_key d left then [] else List.map right_row (rows_at d right))%list.
Proof.
  unfold merge_outer. rewrite rows_at_app.
  fold (left_rows right). fold right_row.
  by rewrite rows_at_left, rows_at_right.
Qed.

(** Each side with at most one row of the date: one merged row, with the
    values of both sides, a side without the date giving its missing
    value. *)
Lemma rows_at_merge_one (d : Z) (left : list (Z * A)) (right : list (Z * B)) :
  (length (rows_at d left) <= 1)%nat ->
  (length (rows_at d right) <= 1)%nat ->
  rows_at d (merge_outer na nb left right) =
  if has_key d left || has_key d right
  then [(d, (value_at na d left, value_at nb d right))]
  else [].
Proof.
  intros Hl Hr. rewrite rows_at_merge, !has_key_rows_at. unfold value_at.
  destruct (rows_at d left) as [|x [|x' lrest]] eqn:Hleft; cbn in Hl; [| |lia].
  - destruct (rows_at d right) as [|y [|y' rrest]] eqn:Hright; cbn in Hr; [| |lia].
    + reflexivity.
    + cbn. unfold right_row. by rewrite (rows_at_head_key _ _ _ _ Hright).
  - pose proof (rows_at_head_key _ _ _ _ Hleft) as Hx.
    cbn [flat_map orb]. unfold left_rows. rewrite Hx, app_nil_r.
    destruct (rows_at d right) as [|y [|y' rrest]] eqn:Hright; cbn in Hr; [| |lia];
      reflexivity.
Qed.

Lemma has_key_merge (d : Z) (left : list (Z * A)) (right : list (Z * B)) :
  has_key d (merge_outer na nb left right) = has_key d left || has_key d right.
Proof.
  rewrite (has_key_rows_at d (merge_outer na nb left right)), rows_at_merge.
  rewrite !has_key_rows_at.
  destruct (rows_at d left) as [|x lrest] eqn:Hleft.
  - cbn [flat_map app orb]. by destruct (rows_at d right).
  - cbn [flat_map orb]. unfold left_rows at 1.
    by destruct (rows_at (fst x) right).
Qed.

Lemma length_left_rows (right : list (Z * B)) (l : Z * A) :
  length (left_rows right l) = Nat.max 1 (length (rows_at (fst l) right)).
Proof.
  unfold left_rows. destruct (rows_at (fst l) right) as [|y ms]; [reflexivity|].
  by rewrite List.length_map.
Qed.

(** How many rows the merge has of one date: a date that one side lacks
    has the rows of the other side, a date of both sides has a row for
    every pair. *)
Lemma length_rows_at_merge (d : Z) (left : list (Z * A)) (right : list (Z * B)) :
  length (rows_at d (merge_outer na nb left right)) =
  if (length (rows_at d left) + length (rows_at d right) =? 0)%nat then 0%nat
  else (Nat.max 1 (length (rows_at d left)) * Nat.max 1 (length (rows_at d right)))%nat.
Proof.
  rewrite rows_at_merge, List.length_app, has_key_rows_at.
  assert (Hleft : length (flat_map (left_rows right) (rows_at d left)) =
                  (length (rows_at d left) * Nat.max 1 (length (rows_at d right)))%nat).
  { assert (Hk : forall l, In l (rows_at d left) -> fst l = d) by apply rows_at_key.
    induction (rows_at d left) as [|x rows IH]; [reflexivity|].
    cbn [flat_map length]. rewrite List.length_app, length_left_rows, IH.
    - rewrite (Hk x) by (by left). reflexivity.
    - intros l Hl. apply Hk. by right. }
  rewrite Hleft. destruct (rows_at d left) as [|x rows].
  - rewrite List.length_map. cbn [length Nat.add Nat.mul].
    destruct (length (rows_at d right)) as [|n]; cbn; lia.
  - cbn [length app]. rewrite Nat.add_0_r. reflexivity.
Qed.

End Merge.

(** ** The sort *)

Lemma insert_row_perm (r : cf_row) (l : list cf_row) :
  Permutation (insert_row r l) (r :: l).
Proof.
  induction l as [|x l IH]; cbn [insert_row]; [reflexivity|].
  destruct (day_of (event_date r) <=? day_of (event_date x)); [reflexivity|].
  rewrite IH. apply perm_swap.
Qed.

Lemma sort_values_perm (l : list cf_row) : Permutation (sort_values l) l.
Proof.
  induction l as [|x l IH]; cbn [sort_values fold_right]; [reflexivity|].
  fold (sort_values l). rewrite insert_row_perm. by constructor.
Qed.

Lemma insert_row_sorted (r : cf_row) (l : list cf_row) :
  Sorted (fun a b => day a <= day b) l ->
  Sorted (fun a b => day a <= day b) (insert_row r l).
Proof.
  induction l as [|x l IH]; intros Hs; cbn [insert_row].
  - repeat constructor.
  - fold (day r) (day x). destruct (day r <=? day x) eqn:Hle.
    + apply Z.leb_le in Hle. constructor; [exact Hs|]. by constructor.
    + apply Z.leb_gt in Hle. apply Sorted_inv in Hs as [Hs Hhd].
      constructor; [by apply IH|].
      destruct l as [|y l]; cbn [insert_row].
      * constructor. lia.
      * fold (day r) (day y). destruct (day r <=? day y); constructor; [lia|].
        by inversion Hhd.
Qed.

Lemma sort_values_sorted (l : list cf_row) :
  StronglySorted (fun a b => day a <= day b) (sort_values l).
Proof.
  apply Sorted_StronglySorted; [intros a b c; lia|].
  induction l as [|x l IH]; cbn [sort_values fold_right]; [constructor|].
  by apply insert_row_sorted.
Qed.

Lemma filter_Permutation_list {A} (p : A -> bool) (l l' : list A) :
  Permutation l l' -> Permutation (List.filter p l) (List.filter p l').
Proof.
  induction 1 as [|x l l' _ IH|x y l|l l' l'' _ IH1 _ IH2]; cbn [List.filter].
  - constructor.
  - destruct (p x); [by constructor | exact IH].
  - destruct (p x), (p y); try reflexivity. apply perm_swap.
  - by etransitivity.
Qed.

Lemma days_sorted (l : list cf_row) :
  StronglySorted (fun a b => day a <= day b) l -> StronglySorted Z.le (days l).
Proof.
  induction 1 as [|x l _ IH Hall]; cbn [days List.map]; constructor; [exact IH|].
  apply List.Forall_forall. intros d Hd. apply in_map_iff in Hd as (y & <- & Hy).
  exact (proj1 (List.Forall_forall _ _) Hall y Hy).
Qed.

(** Sorted rows with at most one row a day are strictly increasing. *)
Lemma days_strictly_sorted (l : list cf_row) :
  StronglySorted (fun a b => day a <= day b) l ->
  (forall d, (length (List.filter (on_day d) l) <= 1)%nat) ->
  StronglySorted Z.lt (days l).
Proof.
  induction 1 as [|x l Hs IH Hall]; intros Hone; cbn [days List.map]; constructor.
  - apply IH. intros d. specialize (Hone d). cbn [List.filter] in Hone.
    destruct (on_day d x); cbn [length] in Hone; lia.
  - apply List.Forall_forall. intros d Hd. apply in_map_iff in Hd as (y & <- & Hy).
    pose proof (proj1 (List.Forall_forall _ _) Hall y Hy) as Hle.
    cbn beta in Hle. change (day x < day y).
    destruct (Z.eq_dec (day x) (day y)) as [Heq|]; [|lia].
    exfalso. specialize (Hone (day x)). cbn [List.filter] in Hone.
    unfold on_day at 1 in Hone. fold (day x) in Hone.
    rewrite Z.eqb_refl in Hone. cbn [length] in Hone.
    assert (Hin : In y (List.filter (on_day (day x)) l)).
    { apply filter_In. split; [exact Hy|]. unfold on_day. fold (day y).
      apply Z.eqb_eq. lia. }
    destruct (List.filter (on_day (day x)) l); [destruct Hin | cbn in Hone; lia].
Qed.

(** ** The merged frame *)

Lemma days_merged (m : list (Z * ((cell * cell) * (cell * cell)))) :
  days (List.map merged_row m) = List.map fst m.
Proof.
  unfold days. rewrite List.map_map. apply List.map_ext.
  by intros (d & (c & a) & (o & t)).
Qed.

Lemma filter_on_day_merged (d : Z) (m : list (Z * ((cell * cell) * (cell * cell)))) :
  List.filter (on_day d) (List.map merged_row m) = List.map merged_row (rows_at d m).
Proof.
  induction m as [|x m IH]; [reflexivity|].
  cbn [List.map List.filter]. rewrite rows_at_cons, IH.
  destruct x as (k & (c & a) & (o & t)). unfold on_day. cbn [merged_row event_date day_of fst].
  by destruct (k =? d).
Qed.

Lemma value_at_merge_one {A B} (na : A) (nb : B) (d : Z)
    (left : list (Z * A)) (right : list (Z * B)) :
  (length (rows_at d left) <= 1)%nat ->
  (length (rows_at d right) <= 1)%nat ->
  value_at (na, nb) d (merge_outer na nb left right) =
  (value_at na d left, value_at nb d right).
Proof.
  intros Hl Hr. unfold value_at at 1.
  rewrite (rows_at_merge_one na nb d left right Hl Hr), !has_key_rows_at.
  unfold value_at.
  by destruct (rows_at d left), (rows_at d right).
Qed.

Lemma rows_at_merge_one_length {A B} (na : A) (nb : B) (d : Z)
    (left : list (Z * A)) (right : list (Z * B)) :
  (length (rows_at d left) <= 1)%nat ->
  (length (rows_at d right) <= 1)%nat ->
  (length (rows_at d (merge_outer na nb left right)) <= 1)%nat.
Proof.
  intros Hl Hr. rewrite (rows_at_merge_one na nb d left right Hl Hr).
  destruct (has_key d left || has_key d right); cbn; lia.
Qed.

(** ** The builder's claims *)

Lemma moex_bond_info_perm (df_coupons : coupons_frame) (df_amt : amt_frame)
    (df_off : offers_frame) :
  Permutation (moex_bond_info df_coupons df_amt df_off)
    (List.map merged_row
       (merge_outer (NA, NA) (NA, NA) (merge_outer NA NA df_coupons df_amt) df_off)).
Proof. unfold moex_bond_info. apply sort_values_perm. Qed.

(** The rows of one date in the frame, when no table has two rows of it. *)
Lemma moex_bond_info_on_day (df_coupons : coupons_frame) (df_amt : amt_frame)
    (df_off : offers_frame) (d : Z) :
  (length (rows_at d df_coupons) <= 1)%nat ->
  (length (rows_at d df_amt) <= 1)%nat ->
  (length (rows_at d df_off) <= 1)%nat ->
  Permutation (List.filter (on_day d) (moex_bond_info df_coupons df_amt df_off))
    (if has_key d df_coupons || has_key d df_amt || has_key d df_off
     then [CfRow (DateStr d)
             (fillna (value_at NA d df_coupons))
             (fillna (value_at NA d df_amt))
             (fillna (fst (value_at (NA, NA) d df_off)))
             (fillna (snd (value_at (NA, NA) d df_off)))]
     else []).
Proof.
  intros Hc Ha Ho.
  rewrite (filter_Permutation_list _ _ _ (moex_bond_info_perm _ _ _)).
  rewrite filter_on_day_merged.
  rewrite rows_at_merge_one
    by (try apply rows_at_merge_one_length; assumption).
  rewrite has_key_merge, value_at_merge_one by assumption.
  destruct (has_key d df_coupons || has_key d df_amt || has_key d df_off);
    [|reflexivity].
  cbn [List.map merged_row]. by destruct (value_at (NA, NA) d df_off).
Qed.

(** C6: the frame holds every date of the three tables and no other; a
    date that each table holds at most once gives one row, with the value
    of every table that has the date and the fill marker, not zero, for a
    table that lacks it; so a coupon-only record and an amortization-only
    record of 2025-06-01 give one row with both; the rows stand in
    ascending order of date. *)
Theorem C6_outer_merge (df_coupons : coupons_frame) (df_amt : amt_frame)
    (df_off : offers_frame) :
  (forall d,
     In d (days (moex_bond_info df_coupons df_amt df_off)) <->
     In d (List.map fst df_coupons) \/ In d (List.map fst df_amt)
     \/ In d (List.map fst df_off)) /\
  (forall d,
     (length (rows_at d df_coupons) <= 1)%nat ->
     (length (rows_at d df_amt) <= 1)%nat ->
     (length (rows_at d df_off) <= 1)%nat ->
     In d (days (moex_bond_info df_coupons df_amt df_off)) ->
     List.filter (on_day d) (moex_bond_info df_coupons df_amt df_off) =
       [CfRow (DateStr d)
          (fillna (value_at NA d df_coupons))
          (fillna (value_at NA d df_amt))
          (fillna (fst (value_at (NA, NA) d df_off)))
          (fillna (snd (value_at (NA, NA) d df_off)))]) /\
  (forall d c,
     rows_at d df_coupons = [(d, c)] -> rows_at d df_amt = [] -> rows_at d df_off = [] ->
     List.filter (on_day d) (moex_bond_info df_coupons df_amt df_off) =
       [CfRow (DateStr d) (fillna c) (Str dash) (Str dash) (Str dash)]) /\
  moex_bond_info [(ymd 2025 6 1, Num 5)] [(ymd 2025 6 1, Num 100)] [] =
    [CfRow (DateStr (ymd 2025 6 1)) (Num 5) (Num 100) (Str dash) (Str dash)] /\
  StronglySorted Z.le (days (moex_bond_info df_coupons df_amt df_off)).
Proof.
  assert (Hdates : forall d,
     In d (days (moex_bond_info df_coupons df_amt df_off)) <->
     has_key d df_coupons || has_key d df_amt || has_key d df_off = true).
  { intros d.
    pose proof (Permutation_map (fun r => day_of (event_date r))
                  (moex_bond_info_perm df_coupons df_amt df_off)) as Hp.
    fold (days (moex_bond_info df_coupons df_amt df_off)) in Hp.
    fold (days (List.map merged_row
      (merge_outer (NA, NA) (NA, NA) (merge_outer NA NA df_coupons df_amt) df_off))) in Hp.
    rewrite days_merged in Hp.
    rewrite <- (has_key_merge NA NA d df_coupons df_amt).
    rewrite <- (has_key_merge (NA, NA) (NA, NA) d _ df_off), has_key_In.
    split; intros H; [exact (Permutation_in d Hp H)|].
    exact (Permutation_in d (Permutation_sym Hp) H). }
  split; [|split; [|split; [|split]]].
  - intros d. rewrite Hdates, !orb_true_iff, !has_key_In. tauto.
  - intros d Hc Ha Ho Hd. apply Hdates in Hd.
    pose proof (moex_bond_info_on_day _ _ _ d Hc Ha Ho) as Hp. rewrite Hd in Hp.
    by apply Permutation_length_1_inv, Permutation_sym.
  - intros d c Hc Ha Ho.
    pose proof (moex_bond_info_on_day df_coupons df_amt df_off d) as Hp.
    rewrite !has_key_rows_at in Hp. unfold value_at in Hp.
    rewrite Hc, Ha, Ho in Hp. cbn in Hp.
    apply Permutation_length_1_inv, Permutation_sym, Hp; lia.
  - vm_compute. reflexivity.
  - apply days_sorted. unfold moex_bond_info. apply sort_values_sorted.
Qed.

(** * The worked example of the solver *)

(** ** Rounding *)

Lemma round_half_even_near (x : Q) (n : Z) :
  (inject_Z n - (1 # 2) < x)%Q -> (x < inject_Z n + (1 # 2))%Q ->
  round_half_even x = n.
Proof.
  intros Hlo Hhi. unfold round_half_even.
  pose proof (Qfloor_le x) as Hf1. pose proof (Qlt_floor x) as Hf2.
  rewrite inject_Z_plus in Hf2. change (inject_Z 1) with 1%Q in Hf2.
  assert (Hn : Qfloor x = n - 1 \/ Qfloor x = n).
  { assert (inject_Z (Qfloor x) < inject_Z (n + 1))%Q as H1
      by (rewrite inject_Z_plus; change (inject_Z 1) with 1%Q; Lqa.lra).
    assert (inject_Z (n - 1) < inject_Z (Qfloor x + 1))%Q as H2
      by (unfold Z.sub; rewrite !inject_Z_plus, inject_Z_opp;
          change (inject_Z 1) with 1%Q; Lqa.lra).
    rewrite <- Zlt_Qlt in H1, H2. lia. }
  destruct Hn as [Hn|Hn]; rewrite Hn in *.
  - replace (Qcompare (x - inject_Z (n - 1)) (1 # 2)) with Gt; [lia|].
    symmetry. apply (proj1 (Qgt_alt _ _)). unfold Z.sub.
    rewrite inject_Z_plus, inject_Z_opp. change (inject_Z 1) with 1%Q.
    Lqa.lra.
  - replace (Qcompare (x - inject_Z n) (1 # 2)) with Lt; [reflexivity|].
    symmetry. apply (proj1 (Qlt_alt _ _)). Lqa.lra.
Qed.

(** ** One year at one coupon *)

Lemma year_fraction_no_day :
  (year_fraction (ymd 2024 1 1) (ymd 2024 1 1) == 0)%Q.
Proof. vm_compute. reflexivity. Qed.

Lemma year_fraction_2024 :
  (year_fraction (ymd 2024 1 1) (ymd 2025 1 1) == 1)%Q.
Proof. vm_compute. reflexivity. Qed.

(** A rate that brings [-1000] now and [1050] in one year within 1/25 of
    zero is 5% to within half a hundredth of a percent. *)
Lemma one_period_rate (a0 a1 r tol : Q) :
  (a0 == - (1000))%Q -> (a1 == 1050)%Q -> (tol <= 1 # 25)%Q ->
  meets_tolerance tol [ymd 2024 1 1; ymd 2025 1 1] [a0; a1] r ->
  (inject_Z 500 - (1 # 2) < r * 100 * 100)%Q /\
  (r * 100 * 100 < inject_Z 500 + (1 # 2))%Q.
Proof.
  intros Ha0 Ha1 Htol [Hr Hnpv].
  unfold xnpv in Hnpv. cbn [combine List.map fold_right fst snd] in Hnpv.
  rewrite (Qeq_eqR _ _ year_fraction_no_day) in Hnpv.
  rewrite (Qeq_eqR _ _ year_fraction_2024) in Hnpv.
  rewrite (Qeq_eqR _ _ Ha0), (Qeq_eqR _ _ Ha1) in Hnpv.
  apply Qle_Rle in Htol.
  set (x := Q2R r) in *.
  assert (Hx : (0 < 1 + x)%R) by Lra.lra.
  replace (Q2R 0) with 0%R in Hnpv by (unfold Q2R; cbn; Lra.lra).
  replace (Q2R 1) with 1%R in Hnpv by (unfold Q2R; cbn; Lra.lra).
  rewrite (Rpower_O _ Hx), (Rpower_1 _ Hx) in Hnpv.
  rewrite Q2R_opp in Hnpv.
  replace (Q2R 1000) with 1000%R in Hnpv by (unfold Q2R; cbn; Lra.lra).
  replace (Q2R 1050) with 1050%R in Hnpv by (unfold Q2R; cbn; Lra.lra).
  replace (Q2R (1 # 25)) with (1 / 25)%R in Htol by (unfold Q2R; cbn; Lra.lra).
  assert (Hu : (1050 / (1 + x) * (1 + x) = 1050)%R) by (field; Lra.lra).
  set (u := (1050 / (1 + x))%R) in *.
  assert (Hb : (- (1 / 25) <= - (1000) / 1 + (u + 0) <= 1 / 25)%R).
  { unfold Rabs in Hnpv. destruct (Rcase_abs _) in Hnpv; Lra.lra. }
  assert (H1 : (99996 / 100 * (1 + x) <= 1050)%R) by Lra.nra.
  assert (H2 : (1050 <= 100004 / 100 * (1 + x))%R) by Lra.nra.
  split; apply Rlt_Qlt; rewrite ?Q2R_minus, ?Q2R_plus, !Q2R_mult; fold x;
    replace (Q2R (inject_Z 500)) with 500%R by (unfold Q2R; cbn; Lra.lra);
    replace (Q2R (1 # 2)) with (1 / 2)%R by (unfold Q2R; cbn; Lra.lra);
    replace (Q2R 100) with 100%R by (unfold Q2R; cbn; Lra.lra);
    Lra.lra.
Qed.

(** C7: bought on 2024-01-01 at 100, with face value 1000 and no accrued
    interest, a schedule whose one event after the purchase date is that
    of 2025-01-01 with coupon 50 and amortization 1000 goes through the
    general path: [xirr] is given the dates [2024-01-01; 2025-01-01] and
    the amounts [-1000; 1050], and when it finds a rate within its
    tolerance (any tolerance up to 1/25 on the net present value) the
    solve returns 5.00. *)
Theorem C7_one_period_example (xirr : list Z -> list Q -> xirr_outcome)
    (py_float : string -> option Q) (w : world) (l_nfo l_cf : loc)
    (nfo : list nfo_row) (cf : list cf_row) (e : cf_row)
    (price face_value accrued_interest c a tol : Q) :
  clock w = ymd 2024 1 1 ->
  heap w !! l_nfo = Some (Info nfo) ->
  heap w !! l_cf = Some (CashFlows cf) ->
  (price == 100)%Q ->
  lookup_value py_float nfo "FACEVALUE" = Ok face_value ->
  (face_value == 1000)%Q ->
  lookup_value py_float nfo "ACCRUEDINT" = Ok accrued_interest ->
  (accrued_interest == 0)%Q ->
  lacks_coupon cf = false ->
  has_option cf = false ->
  future_events (ymd 2024 1 1) cf = [e] ->
  day e = ymd 2025 1 1 ->
  coupon e = Num c -> (c == 50)%Q ->
  amt e = Num a -> (a == 1000)%Q ->
  (tol <= 1 # 25)%Q ->
  solves xirr tol [ymd 2024 1 1; ymd 2025 1 1] [(- (1000))%Q; 1050%Q] ->
  exists y w',
    moex_bond_yield xirr py_float l_nfo l_cf price w = (Ok y, w') /\ (y == 5)%Q.
Proof.
  intros Hclock Hnfo Hcf Hprice Hfv Hfv' Hai Hai' Hlack Hopt Hfut Hday
    Hc Hc' Ha Ha' Htol Hsolves.
  rewrite moex_bond_yield_run, (cash_flows_run _ _ _ _ _ _ _ Hnfo Hcf). cbv zeta.
  rewrite coupon_isna_any_replace, offers_isna_all_replace, Hlack, Hopt.
  cbn [orb]. rewrite Hfv, Hai, filter_after_convert_replace, Hclock, Hfut.
  assert (Hsum : sum_rows (convert_dates (List.map replace_row [e]))
                 = Ok [(c + (a + 0))%Q]).
  { cbn [List.map convert_dates sum_rows set_event_date replace_row coupon amt].
    rewrite Hc, Ha. reflexivity. }
  rewrite Hsum, days_convert_replace. cbn [days List.map fst snd].
  fold (day e). rewrite Hday.
  assert (H0 : (- price / 100 * face_value - accrued_interest == - (1000))%Q)
    by (rewrite Hprice, Hfv', Hai'; reflexivity).
  assert (H1 : (c + (a + 0) == 1050)%Q) by (rewrite Hc', Ha'; reflexivity).
  destruct (Hsolves [(- price / 100 * face_value - accrued_interest)%Q; (c + (a + 0))%Q])
    as (r & Hxirr & Hroot).
  { constructor; [exact H0|]. constructor; [exact H1|]. constructor. }
  rewrite Hxirr. eexists _, _. split; [reflexivity|].
  pose proof (one_period_rate _ _ r tol H0 H1 Htol Hroot) as Hrate.
  unfold py_round2.
  rewrite (round_half_even_near _ 500 (proj1 Hrate) (proj2 Hrate)). reflexivity.
Qed.

(** The one-period stand-in finds the rate of the example exactly. *)
Lemma xirr_one_period_solves :
  solves xirr_one_period (1 # 1000)
    [ymd 2024 1 1; ymd 2025 1 1] [(- (1000))%Q; 1050%Q].
Proof.
  intros amounts' H.
  inversion H as [|a0 b0 l0 l0' Ha0 H']; subst.
  inversion H' as [|a1 b1 l1 l1' Ha1 H'']; subst.
  inversion H''; subst. clear H H' H''.
  exists (- a1 / a0 - 1)%Q.
  assert (Hr : (- a1 / a0 - 1 == 1 # 20)%Q) by (rewrite Ha0, Ha1; reflexivity).
  split.
  - unfold xirr_one_period, both_signs, Qltb. cbn [existsb].
    assert (Qle_bool a1 0 = false) as ->.
    { apply not_true_is_false. intros E. apply Qle_bool_iff in E.
      rewrite Ha1 in E. by apply (Qlt_not_le _ _ (eq_refl : (0 < 1050)%Q)). }
    assert (Qle_bool 0 a0 = false) as ->.
    { apply not_true_is_false. intros E. apply Qle_bool_iff in E.
      rewrite Ha0 in E. by apply (Qlt_not_le _ _ (eq_refl : (- (1000) < 0)%Q)). }
    rewrite !orb_true_r. cbn [andb negb orb].
    replace (Qeq_bool (year_fraction (ymd 2024 1 1) (ymd 2025 1 1)) 1) with true
      by (vm_compute; reflexivity).
    reflexivity.
  - unfold meets_tolerance, xnpv.
    cbn [combine List.map fold_right fst snd].
    rewrite (Qeq_eqR _ _ year_fraction_no_day), (Qeq_eqR _ _ year_fraction_2024).
    rewrite (Qeq_eqR _ _ Ha0), (Qeq_eqR _ _ Ha1), (Qeq_eqR _ _ Hr), Q2R_opp.
    replace (Q2R 0) with 0%R by (unfold Q2R; cbn; Lra.lra).
    replace (Q2R 1) with 1%R by (unfold Q2R; cbn; Lra.lra).
    replace (Q2R 1000) with 1000%R by (unfold Q2R; cbn; Lra.lra).
    replace (Q2R 1050) with 1050%R by (unfold Q2R; cbn; Lra.lra).
    replace (Q2R (1 # 20)) with (1 / 20)%R by (unfold Q2R; cbn; Lra.lra).
    replace (Q2R (1 # 1000)) with (1 / 1000)%R by (unfold Q2R; cbn; Lra.lra).
    assert (Hx : (0 < 1 + 1 / 20)%R) by Lra.lra.
    rewrite (Rpower_O _ Hx), (Rpower_1 _ Hx).
    split; [Lra.lra|].
    replace (- (1000) / 1 + (1050 / (1 + 1 / 20) + 0))%R with 0%R by (field; Lra.lra).
    rewrite Rabs_R0. Lra.lra.
Qed.

(** C7 on the worked input. *)
Lemma C7_witness :
  exists y w',
    moex_bond_yield xirr_one_period decimal_float 0%nat 1%nat 100
      (world_on (ymd 2024 1 1) [redemption]) = (Ok y, w') /\ (y == 5)%Q.
Proof.
  refine (C7_one_period_example xirr_one_period decimal_float
            (world_on (ymd 2024 1 1) [redemption]) 0%nat 1%nat
            example_nfo [redemption] redemption 100 1000 0 50 1000 (1 # 1000)
            eq_refl eq_refl eq_refl _ eq_refl _ eq_refl _ eq_refl eq_refl eq_refl
            eq_refl eq_refl _ eq_refl _ _ xirr_one_period_solves);
    try reflexivity.
  vm_compute. discriminate.
Defined.

(** * Further properties of the solver *)

Section SolverMore.

Variable xirr : list Z -> list Q -> xirr_outcome.
Variable py_float : string -> option Q.

(** The one line the solver can print is the message of line 204, and it
    prints it once, exactly when the schedule passes line 196 and a
    conversion of lines 201-202 raises. *)
Theorem moex_bond_yield_prints (w : world) (l_nfo l_cf : loc)
    (nfo : list nfo_row) (cf : list cf_row) (price : Q) :
  heap w !! l_nfo = Some (Info nfo) ->
  heap w !! l_cf = Some (CashFlows cf) ->
  stdout (snd (moex_bond_yield xirr py_float l_nfo l_cf price w)) =
    if negb (lacks_coupon cf || has_option cf) && conversion_fails py_float nfo
    then (stdout w ++ [missing_msg])%list
    else stdout w.
Proof.
  intros Hnfo Hcf.
  rewrite moex_bond_yield_run, (cash_flows_run _ _ _ _ _ _ _ Hnfo Hcf). cbv zeta.
  rewrite coupon_isna_any_replace, offers_isna_all_replace. unfold conversion_fails.
  destruct (lacks_coupon cf || has_option cf); [reflexivity|]. cbn [negb andb].
  destruct (lookup_value py_float nfo "FACEVALUE") as [fv|e]; [|reflexivity].
  destruct (lookup_value py_float nfo "ACCRUEDINT") as [ai|e]; [|reflexivity].
  destruct (sum_rows _) as [sums|e]; [|reflexivity].
  cbn [fst snd]. by destruct (xirr _ _).
Qed.

(** The events at or before the purchase date reach the result through
    the two checks of line 196 alone: schedules that agree on the checks
    and on the events after the purchase date give one result. *)
Theorem past_events_only_checked (w1 w2 : world) (l_nfo1 l_cf1 l_nfo2 l_cf2 : loc)
    (nfo : list nfo_row) (cf1 cf2 : list cf_row) (price : Q) :
  heap w1 !! l_nfo1 = Some (Info nfo) ->
  heap w1 !! l_cf1 = Some (CashFlows cf1) ->
  heap w2 !! l_nfo2 = Some (Info nfo) ->
  heap w2 !! l_cf2 = Some (CashFlows cf2) ->
  clock w1 = clock w2 ->
  lacks_coupon cf1 = lacks_coupon cf2 ->
  has_option cf1 = has_option cf2 ->
  future_events (clock w1) cf1 = future_events (clock w1) cf2 ->
  fst (moex_bond_yield xirr py_float l_nfo1 l_cf1 price w1) =
  fst (moex_bond_yield xirr py_float l_nfo2 l_cf2 price w2).
Proof.
  intros Hn1 Hc1 Hn2 Hc2 Hclock Hlack Hopt Hfut.
  rewrite !moex_bond_yield_run.
  rewrite (cash_flows_run _ _ _ _ _ _ _ Hn1 Hc1), (cash_flows_run _ _ _ _ _ _ _ Hn2 Hc2).
  cbv zeta.
  rewrite !coupon_isna_any_replace, !offers_isna_all_replace.
  rewrite !filter_after_convert_replace, <- Hclock, <- Hlack, <- Hopt, <- Hfut.
  destruct (lacks_coupon cf1 || has_option cf1); [reflexivity|].
  destruct (lookup_value py_float nfo "FACEVALUE") as [fv|e]; [|reflexivity].
  destruct (lookup_value py_float nfo "ACCRUEDINT") as [ai|e]; [|reflexivity].
  destruct (sum_rows _) as [sums|e]; [|reflexivity].
  cbn [fst snd]. by destruct (xirr _ _).
Qed.

End SolverMore.


(** * Further properties of the cash-flow frame *)

(** ** The rows of an outer merge *)

Lemma In_rows_at {A} (d : Z) (l : list (Z * A)) (r : Z * A) :
  In r (rows_at d l) <-> In r l /\ fst r = d.
Proof.
  unfold rows_at. rewrite filter_In, Z.eqb_eq. reflexivity.
Qed.

Lemma has_key_false {A} (d : Z) (l : list (Z * A)) (x : A) :
  has_key d l = false -> ~ In (d, x) l.
Proof.
  intros Hk Hin. apply not_true_iff_false in Hk. apply Hk.
  apply has_key_In. apply in_map_iff. by exists (d, x).
Qed.

Lemma has_key_true {A} (d : Z) (l : list (Z * A)) :
  has_key d l = true -> exists x, In (d, x) l.
Proof.
  unfold has_key. intros H. apply existsb_exists in H as ([k x] & Hin & Hk).
  apply Z.eqb_eq in Hk. cbn in Hk. subst k. by exists x.
Qed.

(** A row of the merge pairs a left and a right row of one date, or is a
    left row alone where the right has no such date, or a right row alone
    where the left has none. *)
Lemma In_merge_outer {A B} (na : A) (nb : B) (left : list (Z * A))
    (right : list (Z * B)) (d : Z) (x : A) (y : B) :
  In (d, (x, y)) (merge_outer na nb left right) <->
  (In (d, x) left /\ In (d, y) right) \/
  (In (d, x) left /\ y = nb /\ has_key d right = false) \/
  (x = na /\ In (d, y) right /\ has_key d left = false).
Proof.
  unfold merge_outer. rewrite in_app_iff, in_flat_map, in_map_iff. split.
  - intros [([k x0] & Hl & Hin) | ([k y0] & Heq & Hr)].
    + cbn [fst snd] in Hin.
      destruct (rows_at k right) as [|p ms] eqn:Hrows.
      * destruct Hin as [[= <- <- <-] | []]. right. left.
        repeat split; [exact Hl|]. by rewrite has_key_rows_at, Hrows.
      * apply in_map_iff in Hin as ([k' y0] & [= <- <- <-] & Hin).
        rewrite <- Hrows in Hin. apply In_rows_at in Hin as [Hin Hk].
        cbn in Hk. subst k'. by left.
    + injection Heq as <- <- <-. apply filter_In in Hr as [Hr Hk].
      cbn [fst] in Hk. apply negb_true_iff in Hk. right. right. by repeat split.
  - intros [[Hl Hr] | [(Hl & -> & Hk) | (-> & Hr & Hk)]].
    + left. exists (d, x). split; [exact Hl|]. cbn [fst snd].
      assert (Hin : In (d, y) (rows_at d right)) by (by apply In_rows_at).
      destruct (rows_at d right) as [|p ms]; [destruct Hin|].
      apply in_map_iff. by exists (d, y).
    + left. exists (d, x). split; [exact Hl|]. cbn [fst snd].
      rewrite has_key_rows_at in Hk.
      destruct (rows_at d right); [by left | discriminate].
    + right. exists (d, y). split; [reflexivity|]. apply filter_In.
      split; [exact Hr|]. cbn [fst]. by rewrite Hk.
Qed.

(** Every left row and every right row is in the merge. *)
Lemma merge_outer_left {A B} (na : A) (nb : B) (left : list (Z * A))
    (right : list (Z * B)) (d : Z) (x : A) :
  In (d, x) left -> exists y, In (d, (x, y)) (merge_outer na nb left right).
Proof.
  intros Hl. destruct (has_key d right) eqn:Hk.
  - apply has_key_true in Hk as [y Hy]. exists y. apply In_merge_outer. by left.
  - exists nb. apply In_merge_outer. right. left. by repeat split.
Qed.

Lemma merge_outer_right {A B} (na : A) (nb : B) (left : list (Z * A))
    (right : list (Z * B)) (d : Z) (y : B) :
  In (d, y) right ->
  exists x, In (d, (x, y)) (merge_outer na nb left right) /\
            (In (d, x) left \/ x = na /\ has_key d left = false).
Proof.
  intros Hr. destruct (has_key d left) eqn:Hk.
  - apply has_key_true in Hk as [x Hx]. exists x.
    split; [apply In_merge_outer; by left | by left].
  - exists na. split; [apply In_merge_outer; right; right; by repeat split|].
    by right.
Qed.

Lemma absent_fillna (c : cell) : absent (fillna c) = absent c.
Proof. destruct c; reflexivity. Qed.

Lemma isna_fillna (c : cell) : isna (fillna c) = false.
Proof. destruct c; reflexivity. Qed.

(** The solver's replacement undoes the builder's fill. *)
Lemma replace_fillna (c : cell) : replace_cell (fillna c) = replace_cell c.
Proof. destruct c; reflexivity. Qed.

Lemma In_moex_bond_info (df_coupons : coupons_frame) (df_amt : amt_frame)
    (df_off : offers_frame) (r : cf_row) :
  In r (moex_bond_info df_coupons df_amt df_off) <->
  exists d c a o t,
    In (d, ((c, a), (o, t)))
       (merge_outer (NA, NA) (NA, NA) (merge_outer NA NA df_coupons df_amt) df_off) /\
    r = CfRow (DateStr d) (fillna c) (fillna a) (fillna o) (fillna t).
Proof.
  pose proof (moex_bond_info_perm df_coupons df_amt df_off) as Hp. split.
  - intros H. apply (Permutation_in _ Hp), in_map_iff in H
      as ((d & (c & a) & (o & t)) & <- & Hin).
    by exists d, c, a, o, t.
  - intros (d & c & a & o & t & Hin & ->).
    apply (Permutation_in _ (Permutation_sym Hp)), in_map_iff.
    by exists (d, ((c, a), (o, t))).
Qed.

Lemma has_key_false_iff {A} (d : Z) (l : list (Z * A)) :
  has_key d l = false <-> ~ In d (List.map fst l).
Proof. rewrite <- has_key_In. symmetry. apply not_true_iff_false. Qed.

Lemma In_keys {A} (d : Z) (l : list (Z * A)) :
  In d (List.map fst l) <-> exists x, In (d, x) l.
Proof.
  rewrite in_map_iff. split.
  - intros ([k x] & Hk & Hin). cbn in Hk. subst k. by exists x.
  - intros [x Hin]. by exists (d, x).
Qed.

(** ** Dates held more than once *)

Lemma NoDup_rows_at {A} (l : list (Z * A)) :
  (forall d, (length (rows_at d l) <= 1)%nat) -> List.NoDup (List.map fst l).
Proof.
  induction l as [|x l IH]; intros Hone; cbn [List.map]; constructor.
  - intros Hin. apply has_key_In in Hin. rewrite has_key_rows_at in Hin.
    specialize (Hone (fst x)). rewrite rows_at_cons, Z.eqb_refl in Hone.
    destruct (rows_at (fst x) l); [discriminate | cbn in Hone; lia].
  - apply IH. intros d. specialize (Hone d). rewrite rows_at_cons in Hone.
    destruct (fst x =? d); cbn [length] in Hone; lia.
Qed.

(** Strictly increasing days leave at most one row a day. *)
Lemma strictly_sorted_one (l : list cf_row) (d : Z) :
  StronglySorted Z.lt (days l) -> (length (List.filter (on_day d) l) <= 1)%nat.
Proof.
  induction l as [|x l IH]; cbn [days List.map]; [cbn; lia|].
  intros Hs. apply StronglySorted_inv in Hs as [Hs Hall].
  cbn [List.filter]. destruct (on_day d x) eqn:Hx; [|by apply IH].
  assert (Hnone : List.filter (on_day d) l = []).
  { destruct (List.filter (on_day d) l) as [|y rest] eqn:Hf; [reflexivity|].
    assert (Hy : In y (List.filter (on_day d) l)) by (rewrite Hf; by left).
    apply filter_In in Hy as [Hy Hd].
    assert (Hlt : day_of (event_date x) < day_of (event_date y)).
    { apply (proj1 (List.Forall_forall _ _) Hall). apply in_map_iff. by exists y. }
    unfold on_day in Hx, Hd. apply Z.eqb_eq in Hx, Hd. lia. }
  rewrite Hnone. cbn. lia.
Qed.

(** The rows of one date in the frame: none for a date no table holds,
    else a row for every choice of one record of the date from each table
    that holds it. *)
Lemma moex_bond_info_count (df_coupons : coupons_frame) (df_amt : amt_frame)
    (df_off : offers_frame) (d : Z) :
  length (List.filter (on_day d) (moex_bond_info df_coupons df_amt df_off)) =
  if (length (rows_at d df_coupons) + length (rows_at d df_amt)
      + length (rows_at d df_off) =? 0)%nat
  then 0%nat
  else (Nat.max 1 (length (rows_at d df_coupons))
        * Nat.max 1 (length (rows_at d df_amt))
        * Nat.max 1 (length (rows_at d df_off)))%nat.
Proof.
  rewrite (Permutation_length
             (filter_Permutation_list _ _ _ (moex_bond_info_perm _ _ _))).
  rewrite filter_on_day_merged, List.length_map, !length_rows_at_merge.
  destruct (length (rows_at d df_coupons)) as [|nc];
    destruct (length (rows_at d df_amt)) as [|na];
    destruct (length (rows_at d df_off)) as [|no];
    cbn [Nat.add Nat.eqb Nat.max Nat.mul]; try reflexivity;
    rewrite ?Nat.add_0_r, ?Nat.mul_1_r; try reflexivity.
  all: destruct (_ =? 0)%nat eqn:H0; [apply Nat.eqb_eq in H0; lia|].
  all: rewrite Nat.max_r by lia; reflexivity.
Qed.

(** C9 as stated fails when a table holds two rows of one date: two
    coupon records of 2025-06-01 give two rows of that date. *)
Lemma C9_counterexample :
  days (moex_bond_info [(ymd 2025 6 1, Num 5); (ymd 2025 6 1, Num 6)] [] [])
    = [ymd 2025 6 1; ymd 2025 6 1].
Proof. vm_compute. reflexivity. Qed.

(** C9, as the code has it, for every three tables. The frame is in
    ascending order of date. It is strictly increasing, each date once,
    exactly when no table holds two rows of one date. A date no table
    holds has no row; any other date has as many rows as there are
    choices of one record of that date from each table that holds it, so
    a date that a table holds twice is held at least twice by the frame.
    Every record of every table is in a row of its date, with its
    values. *)
Theorem C9_order_and_duplicates (df_coupons : coupons_frame) (df_amt : amt_frame)
    (df_off : offers_frame) :
  StronglySorted Z.le (days (moex_bond_info df_coupons df_amt df_off)) /\
  (StronglySorted Z.lt (days (moex_bond_info df_coupons df_amt df_off)) <->
   List.NoDup (List.map fst df_coupons) /\
   List.NoDup (List.map fst df_amt) /\
   List.NoDup (List.map fst df_off)) /\
  (forall d,
     length (List.filter (on_day d) (moex_bond_info df_coupons df_amt df_off)) =
     if (length (rows_at d df_coupons) + length (rows_at d df_amt)
         + length (rows_at d df_off) =? 0)%nat
     then 0%nat
     else (Nat.max 1 (length (rows_at d df_coupons))
           * Nat.max 1 (length (rows_at d df_amt))
           * Nat.max 1 (length (rows_at d df_off)))%nat) /\
  (forall d,
     (2 <= length (rows_at d df_coupons))%nat \/
     (2 <= length (rows_at d df_amt))%nat \/
     (2 <= length (rows_at d df_off))%nat ->
     (2 <= length (List.filter (on_day d)
                     (moex_bond_info df_coupons df_amt df_off)))%nat) /\
  (forall d c, In (d, c) df_coupons ->
     exists r, In r (moex_bond_info df_coupons df_amt df_off) /\
               event_date r = DateStr d /\ coupon r = fillna c) /\
  (forall d a, In (d, a) df_amt ->
     exists r, In r (moex_bond_info df_coupons df_amt df_off) /\
               event_date r = DateStr d /\ amt r = fillna a) /\
  (forall d o t, In (d, (o, t)) df_off ->
     exists r, In r (moex_bond_info df_coupons df_amt df_off) /\
               event_date r = DateStr d /\
               offer r = fillna o /\ offer_type r = fillna t).
Proof.
  assert (Hcount := moex_bond_info_count df_coupons df_amt df_off).
  assert (Htwice : forall d,
     (2 <= length (rows_at d df_coupons))%nat \/
     (2 <= length (rows_at d df_amt))%nat \/
     (2 <= length (rows_at d df_off))%nat ->
     (2 <= length (List.filter (on_day d)
                     (moex_bond_info df_coupons df_amt df_off)))%nat).
  { intros d H. rewrite Hcount.
    destruct (_ =? 0)%nat eqn:H0; [apply Nat.eqb_eq in H0; lia|].
    assert (1 <= Nat.max 1 (length (rows_at d df_coupons)))%nat by lia.
    assert (1 <= Nat.max 1 (length (rows_at d df_amt)))%nat by lia.
    assert (1 <= Nat.max 1 (length (rows_at d df_off)))%nat by lia.
    destruct H as [H|[H|H]]; nia. }
  split; [|split; [|split; [|split; [|split; [|split]]]]].
  - apply days_sorted. unfold moex_bond_info. apply sort_values_sorted.
  - split.
    + intros Hs.
      assert (Hone : forall d,
        (length (rows_at d df_coupons) <= 1)%nat /\
        (length (rows_at d df_amt) <= 1)%nat /\
        (length (rows_at d df_off) <= 1)%nat).
      { intros d. pose proof (strictly_sorted_one _ d Hs) as Hd.
        pose proof (Htwice d) as H2. lia. }
      repeat split; apply NoDup_rows_at; intros d; apply (Hone d).
    + intros (Hc & Ha & Ho). apply days_strictly_sorted.
      * unfold moex_bond_info. apply sort_values_sorted.
      * intros d.
        rewrite (Permutation_length (moex_bond_info_on_day _ _ _ d
                   (rows_at_NoDup d _ Hc) (rows_at_NoDup d _ Ha) (rows_at_NoDup d _ Ho))).
        destruct (has_key d df_coupons || has_key d df_amt || has_key d df_off);
          cbn; lia.
  - exact Hcount.
  - exact Htwice.
  - intros d c Hc.
    destruct (merge_outer_left NA NA df_coupons df_amt d c Hc) as [a H1].
    destruct (merge_outer_left (NA, NA) (NA, NA) _ df_off d (c, a) H1) as [[o t] H2].
    exists (CfRow (DateStr d) (fillna c) (fillna a) (fillna o) (fillna t)).
    split; [apply In_moex_bond_info; by exists d, c, a, o, t | by split].
  - intros d a Ha.
    destruct (merge_outer_right NA NA df_coupons df_amt d a Ha) as (c & H1 & _).
    destruct (merge_outer_left (NA, NA) (NA, NA) _ df_off d (c, a) H1) as [[o t] H2].
    exists (CfRow (DateStr d) (fillna c) (fillna a) (fillna o) (fillna t)).
    split; [apply In_moex_bond_info; by exists d, c, a, o, t | by split].
  - intros d o t Ho.
    destruct (merge_outer_right (NA, NA) (NA, NA)
                (merge_outer NA NA df_coupons df_amt) df_off d (o, t) Ho)
      as ([c a] & H1 & _).
    exists (CfRow (DateStr d) (fillna c) (fillna a) (fillna o) (fillna t)).
    split; [apply In_moex_bond_info; by exists d, c, a, o, t | by repeat split].
Qed.

(** C9 on a coupon table of two dates, an amortization on the later one
    and an offer between them. *)
Lemma C9_witness :
  StronglySorted Z.lt
    (days (moex_bond_info
             [(ymd 2025 6 1, Num 5); (ymd 2024 12 1, Num 5)]
             [(ymd 2025 6 1, Num 100)]
             [(ymd 2025 1 15, (Num 100, Str "Put"))])).
Proof.
  apply (proj2 (proj1 (proj2 (C9_order_and_duplicates
           [(ymd 2025 6 1, Num 5); (ymd 2024 12 1, Num 5)]
           [(ymd 2025 6 1, Num 100)]
           [(ymd 2025 1 15, (Num 100, Str "Put"))])))).
  repeat split; repeat constructor; cbn; intuition discriminate.
Defined.

(** ** The two checks of the solver on a frame of the builder *)

(** The built frame lacks a coupon exactly when a coupon record has no
    value, or an amortization or an offer falls on a date without a
    coupon record. *)
Lemma lacks_coupon_built (df_coupons : coupons_frame) (df_amt : amt_frame)
    (df_off : offers_frame) :
  lacks_coupon (moex_bond_info df_coupons df_amt df_off) = true <->
  (exists d v, In (d, v) df_coupons /\ absent v = true) \/
  (exists d, (In d (List.map fst df_amt) \/ In d (List.map fst df_off)) /\
             ~ In d (List.map fst df_coupons)).
Proof.
  unfold lacks_coupon. rewrite existsb_exists. split.
  - intros (r & Hin & Habs).
    apply In_moex_bond_info in Hin as (d & c & a & o & t & Hin & ->).
    cbn [coupon] in Habs. rewrite absent_fillna in Habs.
    apply In_merge_outer in Hin as [[H1 _] | [(H1 & _ & _) | (Hna & Ho & Hk)]].
    1,2: apply In_merge_outer in H1
           as [[Hc _] | [(Hc & _ & _) | (-> & Ha & Hk)]];
         [ left; by exists d, c | left; by exists d, c | right; exists d ];
         (split; [left; apply In_keys; by exists a | by apply has_key_false_iff]).
    injection Hna as -> ->. right. exists d.
    rewrite has_key_merge in Hk. apply orb_false_elim in Hk as [Hk _].
    split; [right; apply In_keys; by exists (o, t) | by apply has_key_false_iff].
  - intros [(d & v & Hc & Habs) | (d & [Ha | Ho] & Hk)].
    + destruct (merge_outer_left NA NA df_coupons df_amt d v Hc) as [a H1].
      destruct (merge_outer_left (NA, NA) (NA, NA) _ df_off d (v, a) H1)
        as [[o t] H2].
      exists (CfRow (DateStr d) (fillna v) (fillna a) (fillna o) (fillna t)).
      split; [apply In_moex_bond_info; by exists d, v, a, o, t|].
      cbn [coupon]. by rewrite absent_fillna.
    + apply In_keys in Ha as [a Ha]. apply has_key_false_iff in Hk.
      assert (H1 : In (d, (NA, a)) (merge_outer NA NA df_coupons df_amt))
        by (apply In_merge_outer; right; right; by repeat split).
      destruct (merge_outer_left (NA, NA) (NA, NA) _ df_off d (NA, a) H1)
        as [[o t] H2].
      exists (CfRow (DateStr d) (fillna NA) (fillna a) (fillna o) (fillna t)).
      split; [apply In_moex_bond_info; by exists d, NA, a, o, t | reflexivity].
    + apply In_keys in Ho as [[o t] Ho]. apply has_key_false_iff in Hk.
      destruct (merge_outer_right (NA, NA) (NA, NA)
                  (merge_outer NA NA df_coupons df_amt) df_off d (o, t) Ho)
        as ([c a] & H2 & Hx).
      assert (c = NA) as ->.
      { destruct Hx as [H1 | [[= -> ->] _]]; [|reflexivity].
        apply In_merge_outer in H1 as [[Hc _] | [(Hc & _ & _) | (-> & _ & _)]];
          [| |reflexivity]; by apply has_key_false in Hc. }
      exists (CfRow (DateStr d) (fillna NA) (fillna a) (fillna o) (fillna t)).
      split; [apply In_moex_bond_info; by exists d, NA, a, o, t | reflexivity].
Qed.

(** The built frame carries an option exactly when an offer record has a
    price or a type. *)
Lemma has_option_built (df_coupons : coupons_frame) (df_amt : amt_frame)
    (df_off : offers_frame) :
  has_option (moex_bond_info df_coupons df_amt df_off) = true <->
  exists d p t, In (d, (p, t)) df_off /\ (present p = true \/ present t = true).
Proof.
  unfold has_option. rewrite existsb_exists. split.
  - intros (r & Hin & Hpres).
    apply In_moex_bond_info in Hin as (d & c & a & o & t & Hin & ->).
    cbn [offer offer_type] in Hpres. unfold present in *.
    rewrite !absent_fillna in Hpres. apply orb_true_iff in Hpres.
    apply In_merge_outer in Hin as [[_ Ho] | [(_ & Hna & _) | (_ & Ho & _)]].
    + by exists d, o, t.
    + injection Hna as -> ->. cbn in Hpres. by destruct Hpres.
    + by exists d, o, t.
  - intros (d & p & t & Ho & Hpres).
    destruct (merge_outer_right (NA, NA) (NA, NA)
                (merge_outer NA NA df_coupons df_amt) df_off d (p, t) Ho)
      as ([c a] & H2 & _).
    exists (CfRow (DateStr d) (fillna c) (fillna a) (fillna p) (fillna t)).
    split; [apply In_moex_bond_info; by exists d, c, a, p, t|].
    cbn [offer offer_type]. unfold present in *. rewrite !absent_fillna.
    by apply orb_true_iff.
Qed.

Lemma moex_bond_info_strict (df_coupons : coupons_frame) (df_amt : amt_frame)
    (df_off : offers_frame) :
  List.NoDup (List.map fst df_coupons) ->
  List.NoDup (List.map fst df_amt) ->
  List.NoDup (List.map fst df_off) ->
  StronglySorted Z.lt (days (moex_bond_info df_coupons df_amt df_off)).
Proof.
  intros Hc Ha Ho. apply days_strictly_sorted.
  - unfold moex_bond_info. apply sort_values_sorted.
  - intros d.
    rewrite (Permutation_length (moex_bond_info_on_day _ _ _ d
               (rows_at_NoDup d _ Hc) (rows_at_NoDup d _ Ha) (rows_at_NoDup d _ Ho))).
    destruct (has_key d df_coupons || has_key d df_amt || has_key d df_off);
      cbn; lia.
Qed.

Lemma days_filter_sorted (R : Z -> Z -> Prop) (p : cf_row -> bool) (l : list cf_row) :
  StronglySorted R (days l) -> StronglySorted R (days (List.filter p l)).
Proof.
  induction l as [|x l IH]; cbn [days List.map List.filter]; [by constructor|].
  intros Hs. apply StronglySorted_inv in Hs as [Hs Hall].
  destruct (p x); [|by apply IH].
  cbn [List.map]. constructor; [by apply IH|].
  apply List.Forall_forall. intros d Hd.
  apply in_map_iff in Hd as (y & <- & Hy). apply filter_In in Hy as [Hy _].
  apply (proj1 (List.Forall_forall _ _) Hall). apply in_map_iff. by exists y.
Qed.

Section BuiltSchedule.

Variable xirr : list Z -> list Q -> xirr_outcome.
Variable py_float : string -> option Q.

Lemma rejected_iff_checks (w : world) (l_nfo l_cf : loc)
    (nfo : list nfo_row) (cf : list cf_row) (price : Q) :
  heap w !! l_nfo = Some (Info nfo) ->
  heap w !! l_cf = Some (CashFlows cf) ->
  fst (moex_bond_yield xirr py_float l_nfo l_cf price w)
    = Raise (Exception cant_calculate)
  <-> lacks_coupon cf = true \/ has_option cf = true.
Proof.
  intros Hnfo Hcf. split.
  - rewrite moex_bond_yield_run, (cash_flows_run _ _ _ _ _ _ _ Hnfo Hcf). cbv zeta.
    rewrite coupon_isna_any_replace, offers_isna_all_replace.
    destruct (lacks_coupon cf); [by left|].
    destruct (has_option cf); [by right|]. cbn [orb].
    destruct (lookup_value py_float nfo "FACEVALUE") as [fv|e] eqn:Hfv.
    2:{ cbn. intros [= ->].
        apply lookup_value_raise in Hfv as [H|[H|[s H]]]; discriminate. }
    destruct (lookup_value py_float nfo "ACCRUEDINT") as [ai|e] eqn:Hai.
    2:{ cbn. intros [= ->].
        apply lookup_value_raise in Hai as [H|[H|[s H]]]; discriminate. }
    destruct (sum_rows _) as [sums|e] eqn:Hs.
    + cbn [fst snd]. destruct (xirr _ _) as [r| |[|name]]; cbn; discriminate.
    + cbn. intros [= ->]. apply sum_rows_raise in Hs. discriminate.
  - intros H. rewrite moex_bond_yield_run, (cash_flows_rejected _ _ _ _ _ _ Hcf);
      [reflexivity|].
    destruct H as [-> | ->]; [reflexivity | apply orb_true_r].
Qed.

(** The yield of a bond whose schedule [moex_bond_info] built is refused
    with the exception of line 197 exactly when a coupon record has no
    value, or an amortization or an offer falls on a date that has no
    coupon record, or an offer record has a price or a type. *)
Theorem built_schedule_rejected_iff (w : world) (l_nfo l_cf : loc)
    (nfo : list nfo_row) (df_coupons : coupons_frame) (df_amt : amt_frame)
    (df_off : offers_frame) (price : Q) :
  heap w !! l_nfo = Some (Info nfo) ->
  heap w !! l_cf = Some (CashFlows (moex_bond_info df_coupons df_amt df_off)) ->
  fst (moex_bond_yield xirr py_float l_nfo l_cf price w)
    = Raise (Exception cant_calculate)
  <-> (exists d v, In (d, v) df_coupons /\ absent v = true) \/
      (exists d, (In d (List.map fst df_amt) \/ In d (List.map fst df_off)) /\
                 ~ In d (List.map fst df_coupons)) \/
      (exists d p t, In (d, (p, t)) df_off /\ (present p = true \/ present t = true)).
Proof.
  intros Hnfo Hcf.
  rewrite (rejected_iff_checks _ _ _ _ _ _ Hnfo Hcf).
  rewrite lacks_coupon_built, has_option_built. tauto.
Qed.

(** For tables that hold no date twice, the dates an accepted run hands
    to the root-finder go strictly up from the purchase date, and there
    is one amount for each date. *)
Theorem built_timeline_increasing (w w' : world) (l_nfo l_cf : loc)
    (nfo : list nfo_row) (df_coupons : coupons_frame) (df_amt : amt_frame)
    (df_off : offers_frame) (price : Q) (dates : list Z) (amounts : list Q) :
  List.NoDup (List.map fst df_coupons) ->
  List.NoDup (List.map fst df_amt) ->
  List.NoDup (List.map fst df_off) ->
  heap w !! l_nfo = Some (Info nfo) ->
  heap w !! l_cf = Some (CashFlows (moex_bond_info df_coupons df_amt df_off)) ->
  cash_flows py_float l_nfo l_cf price w = (Ok (dates, amounts), w') ->
  StronglySorted Z.lt dates /\
  hd_error dates = Some (clock w) /\
  length amounts = length dates.
Proof.
  intros Hc Ha Ho Hnfo Hcf Hrun.
  destruct (cash_flows_accepted _ _ _ _ _ _ _ _ _ _ Hnfo Hcf Hrun)
    as (_ & _ & fv & ai & _ & _ & -> & Hamounts).
  split; [|split; [reflexivity|]].
  - unfold timeline. constructor.
    + apply days_filter_sorted. by apply moex_bond_info_strict.
    + apply List.Forall_forall. intros d Hd. unfold days, future_events in Hd.
      apply in_map_iff in Hd as (y & <- & Hy). apply filter_In in Hy as [_ Hy].
      by apply Z.ltb_lt.
  - apply Forall2_length in Hamounts. rewrite Hamounts.
    unfold amounts_vector, timeline, days.
    cbn [length]. by rewrite !length_map.
Qed.

End BuiltSchedule.

(** ** The further properties on worked inputs *)

(** An instrument frame without the face value: the message is printed. *)
Lemma moex_bond_yield_prints_witness :
  stdout (snd (moex_bond_yield xirr_one_period decimal_float 0%nat 1%nat 100
                 (no_info_world (ymd 2024 1 1) [redemption])))
    = [missing_msg].
Proof.
  exact (moex_bond_yield_prints xirr_one_period decimal_float
           (no_info_world (ymd 2024 1 1) [redemption])
           0%nat 1%nat [] [redemption] 100 eq_refl eq_refl).
Defined.

(** A coupon paid in 2023 changes nothing for a purchase in 2024. *)
Lemma past_events_only_checked_witness :
  fst (moex_bond_yield xirr_one_period decimal_float 0%nat 1%nat 100
         (world_on (ymd 2024 1 1) [old_coupon; redemption])) =
  fst (moex_bond_yield xirr_one_period decimal_float 0%nat 1%nat 100
         (world_on (ymd 2024 1 1) [redemption])).
Proof.
  exact (past_events_only_checked xirr_one_period decimal_float
           (world_on (ymd 2024 1 1) [old_coupon; redemption])
           (world_on (ymd 2024 1 1) [redemption])
           0%nat 1%nat 0%nat 1%nat example_nfo
           [old_coupon; redemption] [redemption] 100
           eq_refl eq_refl eq_refl eq_refl eq_refl eq_refl eq_refl eq_refl).
Defined.

(** An amortization on 2024-03-01, a day without a coupon. *)
Lemma built_schedule_rejected_iff_witness :
  fst (moex_bond_yield xirr_one_period decimal_float 0%nat 1%nat 100
         (world_on (ymd 2024 1 1) (moex_bond_info example_coupons early_amt [])))
    = Raise (Exception cant_calculate)
  <-> (exists d v, In (d, v) example_coupons /\ absent v = true) \/
      (exists d, (In d (List.map fst early_amt) \/ In d (List.map fst (@nil (Z * (cell * cell))))) /\
                 ~ In d (List.map fst example_coupons)) \/
      (exists d p t, In (d, (p, t)) (@nil (Z * (cell * cell))) /\
                     (present p = true \/ present t = true)).
Proof.
  exact (built_schedule_rejected_iff xirr_one_period decimal_float
           (world_on (ymd 2024 1 1) (moex_bond_info example_coupons early_amt []))
           0%nat 1%nat example_nfo example_coupons early_amt [] 100
           eq_refl eq_refl).
Defined.

(** Two coupons and the redemption, bought on 2024-01-01. *)
Lemma built_timeline_increasing_witness :
  StronglySorted Z.lt [738886; 739068; 739252] /\
  hd_error [738886; 739068; 739252] = Some (ymd 2024 1 1) /\
  length [(-100000 # 100)%Q; (50 # 1)%Q; (1050 # 1)%Q]
    = length [738886; 739068; 739252].
Proof.
  refine (built_timeline_increasing decimal_float
            (world_on (ymd 2024 1 1) (moex_bond_info example_coupons example_amt []))
            (snd (cash_flows decimal_float 0%nat 1%nat 100
                    (world_on (ymd 2024 1 1)
                       (moex_bond_info example_coupons example_amt []))))
            0%nat 1%nat example_nfo example_coupons example_amt [] 100
            [738886; 739068; 739252]
            [(-100000 # 100)%Q; (50 # 1)%Q; (1050 # 1)%Q]
            _ _ _ eq_refl eq_refl eq_refl).
  - repeat constructor; cbn; intuition discriminate.
  - repeat constructor; cbn; intuition.
  - constructor.
Defined.

(** ** [isin_secid] *)

Lemma cell_is_true (code : string) (c : cell) :
  cell_is code c = true <-> c = Str code.
Proof.
  destruct c as [q|s|]; simpl; try (split; [discriminate|congruence]).
  rewrite String.eqb_eq. split; congruence.
Qed.

Lemma bad_direction_false (direction : option string) :
  bad_direction direction = false <->
  direction = Some "isin2secid" \/ direction = Some "secid2isin".
Proof.
  destruct direction as [d|]; simpl.
  - rewrite negb_false_iff, orb_true_iff, !String.eqb_eq.
    split; (intros [H|H]; [left|right]); congruence.
  - split; [discriminate|]. intros [H|H]; discriminate.
Qed.

(** The row [.iat[0]] reads is the first one whose key cell is the code. *)
Lemma first_match_spec (key val : sec_row -> cell) (code : string)
    (rows : list sec_row) :
  match first_match key val code rows with
  | Some v =>
      exists pre r post,
        rows = (pre ++ r :: post)%list /\
        Forall (fun r' => key r' <> Str code) pre /\
        key r = Str code /\ v = val r
  | None => Forall (fun r' => key r' <> Str code) rows
  end.
Proof.
  unfold first_match. induction rows as [|r rows IH]; simpl; [constructor|].
  destruct (cell_is code (key r)) eqn:Hr.
  - exists [], r, rows. repeat split; [constructor|]. by apply cell_is_true.
  - assert (Hne : key r <> Str code).
    { intros H. apply cell_is_true in H. congruence. }
    destruct (List.filter _ rows) as [|r0 rest].
    + by constructor.
    + destruct IH as (pre & r1 & post & -> & Hpre & Hkey & Hv).
      exists (r :: pre), r1, post. repeat split; try done. by constructor.
Qed.

Section IssFacts.

Variable get : string -> response.
Variable upper : string -> string.

(** Direction isin2secid, the request answered with a table: the
    call returns, after one request for the upper-cased code. It returns
    the secid cell of the first row whose isin is the upper-cased code and
    prints nothing; when the table has no such row it returns None and
    prints one line, [No match for ISIN] and the upper-cased code. *)
Theorem isin2secid_lookup (code : string) (df : list sec_row) (s : session) :
  get (securities_url (upper code)) = Json df ->
  exists v s',
    isin_secid get upper code (Some "isin2secid") s = (Returns v, s') /\
    requested s' = (requested s ++ [securities_url (upper code)])%list /\
    ((exists pre r post,
        df = (pre ++ r :: post)%list /\
        Forall (fun r' => isin r' <> Str (upper code)) pre /\
        isin r = Str (upper code) /\
        v = secid r /\ console s' = console s)
     \/
     (Forall (fun r' => isin r' <> Str (upper code)) df /\
      v = NA /\
      console s' = (console s ++ [("No match for ISIN " ++ upper code)%string])%list)).
Proof.
  intros Hget. unfold isin_secid. cbn [bad_direction]. rewrite Hget.
  change (String.eqb "isin2secid" "isin2secid") with true. cbn [orb negb].
  pose proof (first_match_spec isin secid (upper code) df) as Hspec.
  destruct (first_match isin secid (upper code) df) as [v|].
  - destruct Hspec as (pre & r & post & Hdf & Hpre & Hkey & Hv).
    eexists _, _. split; [reflexivity|]. split; [reflexivity|].
    left. by exists pre, r, post.
  - eexists _, _. split; [reflexivity|]. split; [reflexivity|].
    right. by repeat split.
Qed.

(** Direction secid2isin, the request answered with a table: the
    call returns, after one request for the upper-cased code. It returns
    the isin cell of the first row whose secid is the upper-cased code and
    prints nothing; when the table has no such row it returns None and
    prints one line, [No match for SECID] and the upper-cased code. *)
Theorem secid2isin_lookup (code : string) (df : list sec_row) (s : session) :
  get (securities_url (upper code)) = Json df ->
  exists v s',
    isin_secid get upper code (Some "secid2isin") s = (Returns v, s') /\
    requested s' = (requested s ++ [securities_url (upper code)])%list /\
    ((exists pre r post,
        df = (pre ++ r :: post)%list /\
        Forall (fun r' => secid r' <> Str (upper code)) pre /\
        secid r = Str (upper code) /\
        v = isin r /\ console s' = console s)
     \/
     (Forall (fun r' => secid r' <> Str (upper code)) df /\
      v = NA /\
      console s' = (console s ++ [("No match for SECID " ++ upper code)%string])%list)).
Proof.
  intros Hget. unfold isin_secid. cbn [bad_direction]. rewrite Hget.
  change (String.eqb "secid2isin" "isin2secid") with false.
  change (String.eqb "secid2isin" "secid2isin") with true. cbn [orb negb].
  pose proof (first_match_spec secid isin (upper code) df) as Hspec.
  destruct (first_match secid isin (upper code) df) as [v|].
  - destruct Hspec as (pre & r & post & Hdf & Hpre & Hkey & Hv).
    eexists _, _. split; [reflexivity|]. split; [reflexivity|].
    left. by exists pre, r, post.
  - eexists _, _. split; [reflexivity|]. split; [reflexivity|].
    right. by repeat split.
Qed.

(** The two ways [isin_secid] raises, and no other: a direction that
    is neither isin2secid nor secid2isin raises the direction message
    before anything is requested or printed; a request that fails is
    re-raised after one request and one printed line, the class of the
    error, a colon and its text. *)
Theorem isin_secid_raises_iff (code : string) (direction : option string)
    (s s' : session) (e : iss_exn) :
  isin_secid get upper code direction s = (Throws e, s') <->
  (direction <> Some "isin2secid" /\ direction <> Some "secid2isin" /\
   e = DirectionException direction_msg /\ s' = s)
  \/
  ((direction = Some "isin2secid" \/ direction = Some "secid2isin") /\
   exists class text,
     get (securities_url (upper code)) = Fails class text /\
     e = RequestException class text /\
     requested s' = (requested s ++ [securities_url (upper code)])%list /\
     console s' = (console s ++ [(class ++ ": " ++ text)%string])%list).
Proof.
  unfold isin_secid.
  destruct (bad_direction direction) eqn:Hdir.
  - assert (Hno : ~ (direction = Some "isin2secid" \/ direction = Some "secid2isin")).
    { intros H. apply bad_direction_false in H. congruence. }
    split.
    + intros [= <- <-]. left. repeat split; try done; intros H; apply Hno; auto.
    + intros [(_ & _ & -> & ->)|[H _]]; [reflexivity|contradiction].
  - pose proof (proj1 (bad_direction_false direction) Hdir) as Hyes.
    split.
    + intros Hrun. right. split; [exact Hyes|].
      destruct (get (securities_url (upper code))) as [class text|df].
      * injection Hrun as <- <-. by exists class, text.
      * destruct (match direction with Some d => _ | None => _ end);
          [destruct (first_match isin secid _ _)|destruct (first_match secid isin _ _)];
          discriminate.
    + intros [(H1 & H2 & _)|(_ & class & text & Hget & -> & Hreq & Hcon)].
      * destruct Hyes; contradiction.
      * rewrite Hget. f_equal. destruct s' as [rq co]. simpl in *. by subst.
Qed.

End IssFacts.

(** ** The instrument frame *)

Lemma unique_NoDup (labels : list string) :
  unique labels = true <-> List.NoDup labels.
Proof.
  induction labels as [|x rest IH]; simpl.
  - split; [constructor|reflexivity].
  - rewrite andb_true_iff, negb_true_iff, IH. split.
    + intros [Hx Hrest]. constructor; [|exact Hrest].
      intros Hin. apply not_true_iff_false in Hx. apply Hx.
      apply existsb_exists. exists x. split; [exact Hin|apply String.eqb_refl].
    + intros H. inversion H as [|? ? Hx Hrest]; subst. split; [|exact Hrest].
      apply not_true_iff_false. intros Hex.
      apply existsb_exists in Hex as (y & Hy & Heq).
      apply String.eqb_eq in Heq. by subst.
Qed.

Lemma info_labels_NoDup : List.NoDup info_labels.
Proof. apply unique_NoDup. reflexivity. Qed.

(** In a frame with one row for each of a list of distinct labels, a
    label of the list selects its row and no other. *)
Lemma filter_label_map (f : string -> nfo_row) (labels : list string) (lbl : string) :
  (forall x, label (f x) = x) ->
  List.NoDup labels ->
  In lbl labels ->
  List.filter (fun r => String.eqb (label r) lbl) (List.map f labels) = [f lbl].
Proof.
  intros Hf. induction labels as [|x rest IH]; [intros _ []|].
  intros Hnd Hin. inversion Hnd as [|? ? Hx Hrest]; subst.
  cbn [List.map List.filter]. rewrite Hf.
  destruct (String.eqb x lbl) eqn:Hxl.
  - apply String.eqb_eq in Hxl. subst x. f_equal.
    clear IH Hin Hnd Hrest. induction rest as [|y rest IH]; [reflexivity|].
    cbn [List.map List.filter]. rewrite Hf.
    destruct (String.eqb y lbl) eqn:Hy.
    + apply String.eqb_eq in Hy. subst. exfalso. apply Hx. by left.
    + apply IH. intros H. apply Hx. by right.
  - destruct Hin as [->|Hin]; [by rewrite String.eqb_refl in Hxl|].
    by apply IH.
Qed.

(** Lines 128-141 on a frame of distinct labels. *)
Lemma instrument_frame_ok (df_nfo df_yld df_vol : list nfo_row) :
  unique (List.map label (df_nfo ++ df_yld ++ df_vol)) = true ->
  instrument_frame df_nfo df_yld df_vol =
    Ok (List.map (fun lbl =>
          match row_of lbl (df_nfo ++ df_yld ++ df_vol) with
          | Some r => NfoRow lbl (fillna (shorten (key r))) (fillna (value r))
          | None => NfoRow lbl (Str dash) (Str dash)
          end) info_labels).
Proof.
  intros Hu. unfold instrument_frame, reindex. rewrite Hu.
  rewrite !List.map_map. f_equal. apply List.map_ext. intros lbl.
  by destruct (row_of lbl _).
Qed.

Lemma instrument_frame_inv (df_nfo df_yld df_vol out : list nfo_row) :
  instrument_frame df_nfo df_yld df_vol = Ok out ->
  unique (List.map label (df_nfo ++ df_yld ++ df_vol)) = true.
Proof.
  unfold instrument_frame, reindex.
  by destruct (unique _).
Qed.

Lemma instrument_frame_rows (df_nfo df_yld df_vol out : list nfo_row) :
  instrument_frame df_nfo df_yld df_vol = Ok out ->
  out = List.map (fun lbl =>
          match row_of lbl (df_nfo ++ df_yld ++ df_vol) with
          | Some r => NfoRow lbl (fillna (shorten (key r))) (fillna (value r))
          | None => NfoRow lbl (Str dash) (Str dash)
          end) info_labels.
Proof.
  intros H. pose proof (instrument_frame_inv _ _ _ _ H) as Hu.
  rewrite (instrument_frame_ok _ _ _ Hu) in H. congruence.
Qed.

(** The instrument frame is built exactly when no label comes twice
    in the three parts put together; two rows of one label make
    [reindex] raise ValueError. *)
Lemma instrument_frame_built_iff (df_nfo df_yld df_vol : list nfo_row) :
  ((exists out, instrument_frame df_nfo df_yld df_vol = Ok out) <->
   List.NoDup (List.map label (df_nfo ++ df_yld ++ df_vol))) /\
  ((exists out, instrument_frame df_nfo df_yld df_vol = Ok out) \/
   instrument_frame df_nfo df_yld df_vol =
     Raise (ValueError "cannot reindex on an axis with duplicate labels")).
Proof.
  split.
  - rewrite <- unique_NoDup. split.
    + intros [out H]. by apply instrument_frame_inv in H.
    + intros H. rewrite (instrument_frame_ok _ _ _ H). eauto.
  - destruct (unique (List.map label (df_nfo ++ df_yld ++ df_vol))) eqn:Hu.
    + left. rewrite (instrument_frame_ok _ _ _ Hu). eauto.
    + right. unfold instrument_frame, reindex. by rewrite Hu.
Qed.

(** A frame that is built has the twenty-one labels of line 129, in
    that order, whatever the feed delivered, and no empty cell: neither
    a title nor a value is missing. *)
Theorem instrument_frame_shape (df_nfo df_yld df_vol out : list nfo_row) :
  instrument_frame df_nfo df_yld df_vol = Ok out ->
  List.map label out = info_labels /\
  length out = 21%nat /\
  Forall (fun r => isna (key r) = false /\ isna (value r) = false) out.
Proof.
  intros H. apply instrument_frame_rows in H. subst out.
  split; [|split].
  - rewrite List.map_map. rewrite <- (List.map_id info_labels) at 2.
    apply List.map_ext. intros lbl. by destruct (row_of lbl _).
  - by rewrite List.length_map.
  - apply List.Forall_forall. intros r Hr.
    apply List.in_map_iff in Hr as (lbl & <- & _).
    destruct (row_of lbl _); cbn [key value]; by rewrite ?isna_fillna.
Qed.

Section InstrumentFacts.

Variable xirr : list Z -> list Q -> xirr_outcome.
Variable py_float : string -> option Q.

(** One of the twenty-one labels selects its one row. *)
Lemma lookup_value_rows (df : list nfo_row) (lbl : string) :
  In lbl info_labels ->
  lookup_value py_float
    (List.map (fun lbl =>
       match row_of lbl df with
       | Some r => NfoRow lbl (fillna (shorten (key r))) (fillna (value r))
       | None => NfoRow lbl (Str dash) (Str dash)
       end) info_labels) lbl =
  float py_float (fillna (delivered lbl df)).
Proof.
  intros Hin. unfold lookup_value.
  rewrite (filter_label_map _ _ lbl); [| |exact info_labels_NoDup|exact Hin].
  - unfold delivered. by destruct (row_of lbl _).
  - intros x. by destruct (row_of x _).
Qed.

(** On a frame that is built, reading one of the twenty-one labels
    as the solver does converts what the feed delivered under it, or the
    dash when it delivered nothing or an empty value. It never is a
    KeyError. *)
Theorem instrument_frame_lookup (df_nfo df_yld df_vol out : list nfo_row)
    (lbl : string) :
  instrument_frame df_nfo df_yld df_vol = Ok out ->
  In lbl info_labels ->
  lookup_value py_float out lbl =
    float py_float (fillna (delivered lbl (df_nfo ++ df_yld ++ df_vol))).
Proof.
  intros H Hin. apply instrument_frame_rows in H. subst out.
  by apply lookup_value_rows.
Qed.

Lemma float_raise (c : cell) (e : exn) :
  float py_float c = Raise e -> e = TypeError \/ exists s, e = ValueError s.
Proof.
  destruct c as [q|s|]; simpl; [discriminate| |intros [= <-]; by left].
  destruct (py_float s); [discriminate|]. intros [= <-]. right. by exists s.
Qed.

(** With the frame [moex_bond_info] builds, the solver never fails
    with a KeyError: both labels it reads are among the twenty-one. *)
Theorem built_frame_no_key_error (w : world) (l_nfo l_cf : loc)
    (df_nfo df_yld df_vol out : list nfo_row) (cf : list cf_row)
    (price : Q) (lbl : string) :
  instrument_frame df_nfo df_yld df_vol = Ok out ->
  heap w !! l_nfo = Some (Info out) ->
  heap w !! l_cf = Some (CashFlows cf) ->
  fst (moex_bond_yield xirr py_float l_nfo l_cf price w) <> Raise (KeyError lbl).
Proof.
  intros Hout Hnfo Hcf.
  rewrite moex_bond_yield_run, (cash_flows_run _ _ _ _ _ _ _ Hnfo Hcf). cbv zeta.
  destruct (coupon_isna_any _ || negb (offers_isna_all _)); [discriminate|].
  apply instrument_frame_rows in Hout. subst out.
  rewrite !lookup_value_rows by (cbn; tauto).
  destruct (float py_float (fillna (delivered "FACEVALUE" _))) as [fv|e] eqn:Hfv.
  2:{ cbn [fst]. intros [= ->]. by destruct (float_raise _ _ Hfv) as [?|[? ?]]. }
  destruct (float py_float (fillna (delivered "ACCRUEDINT" _))) as [ai|e] eqn:Hai.
  2:{ cbn [fst]. intros [= ->]. by destruct (float_raise _ _ Hai) as [?|[? ?]]. }
  destruct (sum_rows _) as [sums|e] eqn:Hs.
  2:{ cbn [fst]. intros [= ->]. by apply sum_rows_raise in Hs. }
  cbn [fst snd]. destruct (xirr _ _) as [r| |[|name]]; discriminate.
Qed.

(** A bond whose face value the feed does not deliver, or delivers
    empty, has the dash in the built frame; when [float] refuses the
    dash, a schedule that passes line 196 makes the solver print the
    message of line 204 and fail with the ValueError of the dash. *)
Theorem built_frame_missing_face_value (w : world) (l_nfo l_cf : loc)
    (df_nfo df_yld df_vol out : list nfo_row) (cf : list cf_row) (price : Q) :
  instrument_frame df_nfo df_yld df_vol = Ok out ->
  absent (delivered "FACEVALUE" (df_nfo ++ df_yld ++ df_vol)) = true ->
  py_float dash = None ->
  heap w !! l_nfo = Some (Info out) ->
  heap w !! l_cf = Some (CashFlows cf) ->
  lacks_coupon cf || has_option cf = false ->
  moex_bond_yield xirr py_float l_nfo l_cf price w =
    (Raise (ValueError dash),
     World (clock w) (heap w ++ [CashFlows (List.map replace_row cf)])%list
       (stdout w ++ [missing_msg])%list).
Proof.
  intros Hout Habs Hdash Hnfo Hcf Hcheck.
  rewrite moex_bond_yield_run, (cash_flows_run _ _ _ _ _ _ _ Hnfo Hcf). cbv zeta.
  rewrite coupon_isna_any_replace, offers_isna_all_replace, Hcheck.
  apply instrument_frame_rows in Hout. subst out.
  rewrite (lookup_value_rows _ "FACEVALUE") by (cbn; tauto).
  assert (Hfill : fillna (delivered "FACEVALUE" (df_nfo ++ df_yld ++ df_vol)) = Str dash).
  { destruct (delivered _ _) as [q|s|]; simpl in *; [discriminate| |reflexivity].
    apply String.eqb_eq in Habs. by subst. }
  rewrite Hfill. cbn [float]. by rewrite Hdash.
Qed.

End InstrumentFacts.

(** ** The added facts on the worked inputs *)

(** A lower-case ISIN: the second row answers, the first has no isin. *)
Lemma isin2secid_lookup_witness :
  exists v s',
    isin_secid example_server ascii_upper "ru000a0jtk38" (Some "isin2secid")
      (Session [] []) = (Returns v, s') /\
    requested s' = ([] ++ [securities_url (ascii_upper "ru000a0jtk38")])%list /\
    ((exists pre r post,
        example_securities = (pre ++ r :: post)%list /\
        Forall (fun r' => isin r' <> Str (ascii_upper "ru000a0jtk38")) pre /\
        isin r = Str (ascii_upper "ru000a0jtk38") /\
        v = secid r /\ console s' = [])
     \/
     (Forall (fun r' => isin r' <> Str (ascii_upper "ru000a0jtk38")) example_securities /\
      v = NA /\
      console s' = ([] ++ [("No match for ISIN " ++ ascii_upper "ru000a0jtk38")%string])%list)).
Proof.
  exact (isin2secid_lookup example_server ascii_upper "ru000a0jtk38"
           example_securities (Session [] []) eq_refl).
Defined.

(** A SECID the server answers with an empty table. *)
Lemma secid2isin_lookup_witness :
  exists v s',
    isin_secid example_server ascii_upper "xs0000000000" (Some "secid2isin")
      (Session [] []) = (Returns v, s') /\
    requested s' = ([] ++ [securities_url (ascii_upper "xs0000000000")])%list /\
    ((exists pre r post,
        [] = (pre ++ r :: post)%list /\
        Forall (fun r' => secid r' <> Str (ascii_upper "xs0000000000")) pre /\
        secid r = Str (ascii_upper "xs0000000000") /\
        v = isin r /\ console s' = [])
     \/
     (Forall (fun r' => secid r' <> Str (ascii_upper "xs0000000000")) [] /\
      v = NA /\
      console s' = ([] ++ [("No match for SECID " ++ ascii_upper "xs0000000000")%string])%list)).
Proof.
  exact (secid2isin_lookup example_server ascii_upper "xs0000000000"
           [] (Session [] []) eq_refl).
Defined.

(** Two delivered rows give the twenty-one. *)
Lemma instrument_frame_shape_witness :
  List.map label (built (instrument_frame feed_without_face_value [] [])) = info_labels /\
  length (built (instrument_frame feed_without_face_value [] [])) = 21%nat /\
  Forall (fun r => isna (key r) = false /\ isna (value r) = false)
    (built (instrument_frame feed_without_face_value [] [])).
Proof.
  exact (instrument_frame_shape feed_without_face_value [] []
           (built (instrument_frame feed_without_face_value [] [])) eq_refl).
Defined.

(** The coupon value of the feed, read from the built frame. *)
Lemma instrument_frame_lookup_witness :
  lookup_value decimal_float (built (instrument_frame feed_without_face_value [] []))
    "COUPONVALUE" =
  float decimal_float
    (fillna (delivered "COUPONVALUE" (feed_without_face_value ++ [] ++ []))).
Proof.
  apply (instrument_frame_lookup decimal_float feed_without_face_value [] []
           (built (instrument_frame feed_without_face_value [] [])) "COUPONVALUE").
  - reflexivity.
  - do 15 right. left. reflexivity.
Defined.

Lemma built_frame_no_key_error_witness :
  fst (moex_bond_yield xirr_one_period decimal_float 0%nat 1%nat 100
         (built_world (ymd 2024 1 1) feed_without_face_value [redemption]))
    <> Raise (KeyError "FACEVALUE").
Proof.
  exact (built_frame_no_key_error xirr_one_period decimal_float
           (built_world (ymd 2024 1 1) feed_without_face_value [redemption])
           0%nat 1%nat feed_without_face_value [] []
           (built (instrument_frame feed_without_face_value [] []))
           [redemption] 100 "FACEVALUE" eq_refl eq_refl eq_refl).
Defined.

(** No face value in the feed: the redemption cannot be priced. *)
Lemma built_frame_missing_face_value_witness :
  moex_bond_yield xirr_one_period decimal_float 0%nat 1%nat 100
    (built_world (ymd 2024 1 1) feed_without_face_value [redemption]) =
  (Raise (ValueError dash),
   World (ymd 2024 1 1)
     ([Info (built (instrument_frame feed_without_face_value [] []));
       CashFlows [redemption]] ++ [CashFlows (List.map replace_row [redemption])])%list
     ([] ++ [missing_msg])%list).
Proof.
  exact (built_frame_missing_face_value xirr_one_period decimal_float
           (built_world (ymd 2024 1 1) feed_without_face_value [redemption])
           0%nat 1%nat feed_without_face_value [] []
           (built (instrument_frame feed_without_face_value [] []))
           [redemption] 100 eq_refl eq_refl eq_refl eq_refl eq_refl eq_refl).
Defined.

(** ** The description and the instrument frame *)

Lemma filter_label_kept (lbl : string) (df : list nfo_row) :
  existsb (String.eqb lbl) excluded_labels = false ->
  List.filter (fun r => String.eqb (label r) lbl) (List.filter kept df) =
  List.filter (fun r => String.eqb (label r) lbl) df.
Proof.
  intros Hlbl. induction df as [|r df IH]; [reflexivity|].
  cbn [List.filter]. destruct (String.eqb (label r) lbl) eqn:Hr.
  - apply String.eqb_eq in Hr. unfold kept at 1. rewrite Hr, Hlbl. cbn [negb].
    cbn [List.filter]. rewrite Hr, String.eqb_refl. by rewrite IH.
  - destruct (kept r); [|exact IH]. cbn [List.filter]. by rewrite Hr, IH.
Qed.

Lemma set_value_labels (lbl : string) (v : cell) (df : list nfo_row) :
  List.map label (set_value lbl v df) = List.map label df.
Proof.
  unfold set_value. rewrite List.map_map. apply List.map_ext.
  intros r. by destruct (String.eqb (label r) lbl).
Qed.

(** The first row of a label, after its value is set. *)
Lemma row_of_set_value (lbl : string) (v : cell) (df rest : list nfo_row) :
  List.filter (fun r => String.eqb (label r) lbl) df <> [] ->
  exists k, row_of lbl (set_value lbl v df ++ rest) = Some (NfoRow lbl k v).
Proof.
  unfold row_of. induction df as [|r df IH]; [done|].
  cbn [List.filter set_value List.map app List.find].
  destruct (String.eqb (label r) lbl) eqn:Hr.
  - intros _. cbn [label]. rewrite Hr. apply String.eqb_eq in Hr.
    exists (key r). by rewrite Hr.
  - rewrite Hr. exact IH.
Qed.

Lemma row_of_map (f : string -> nfo_row) (labels : list string) (lbl : string) :
  (forall x, label (f x) = x) ->
  In lbl labels ->
  row_of lbl (List.map f labels) = Some (f lbl).
Proof.
  intros Hf. unfold row_of. induction labels as [|x rest IH]; [intros []|].
  intros Hin. cbn [List.map List.find]. rewrite Hf.
  destruct (String.eqb x lbl) eqn:Hx.
  - apply String.eqb_eq in Hx. by subst.
  - destruct Hin as [->|Hin]; [by rewrite String.eqb_refl in Hx|]. by apply IH.
Qed.

Section DescriptionFacts.

Variable py_float : string -> option Q.
Variable format_1f : Q -> string.

Lemma lookup_value_kept (lbl : string) (df : list nfo_row) :
  existsb (String.eqb lbl) excluded_labels = false ->
  lookup_value py_float (List.filter kept df) lbl = lookup_value py_float df lbl.
Proof. intros H. unfold lookup_value. by rewrite (filter_label_kept _ _ H). Qed.

Lemma lookup_value_ok (df : list nfo_row) (lbl : string) (q : Q) :
  lookup_value py_float df lbl = Ok q ->
  List.filter (fun r => String.eqb (label r) lbl) df <> [].
Proof. unfold lookup_value. by destruct (List.filter _ df). Qed.

(** Lines 76-90 when they do not raise. *)
Lemma description_frame_ok (ticker : string) (description df : list nfo_row) :
  description_frame py_float format_1f ticker description = Ok df <->
  exists issuesize initialfacevalue,
    lookup_value py_float description "ISSUESIZE" = Ok issuesize /\
    lookup_value py_float description "INITIALFACEVALUE" = Ok initialfacevalue /\
    df = set_value "ISSUESIZE"
           (Str (format_1f (issuesize * initialfacevalue / 1000000000)%Q ++ " млрд"))
           (List.filter kept description).
Proof.
  unfold description_frame.
  rewrite !lookup_value_kept by reflexivity.
  destruct description as [|r description].
  - split; [discriminate|]. by intros (a & b & H & _).
  - set (desc := r :: description).
    destruct (lookup_value py_float desc "ISSUESIZE") as [a|e].
    + destruct (lookup_value py_float desc "INITIALFACEVALUE") as [b|e].
      * split.
        -- intros [= <-]. by exists a, b.
        -- intros (a' & b' & [= <-] & [= <-] & ->). reflexivity.
      * split; [discriminate|]. by intros (a' & b' & _ & H & _).
    + split; [discriminate|]. by intros (a' & b' & H & _).
Qed.

(** The frame of one ticker is built exactly when the description
    has one ISSUESIZE row and one INITIALFACEVALUE row whose values
    [float] accepts, and no label is left twice once the eleven labels of
    lines 87-88 are dropped. *)
Theorem info_frame_built_iff (ticker : string)
    (description df_yld df_vol : list nfo_row) :
  (exists out, info_frame py_float format_1f ticker description df_yld df_vol = Ok out)
  <->
  (exists issuesize initialfacevalue,
     lookup_value py_float description "ISSUESIZE" = Ok issuesize /\
     lookup_value py_float description "INITIALFACEVALUE" = Ok initialfacevalue) /\
  List.NoDup (List.map label (List.filter kept description ++ df_yld ++ df_vol)).
Proof.
  unfold info_frame. split.
  - intros [out H].
    destruct (description_frame py_float format_1f ticker description) as [df|e] eqn:Hd;
      [|discriminate].
    apply description_frame_ok in Hd as (a & b & Ha & Hb & ->).
    split; [by exists a, b|].
    apply instrument_frame_inv in H. apply unique_NoDup in H.
    by rewrite !List.map_app, set_value_labels, <- !List.map_app in H.
  - intros [(a & b & Ha & Hb) Hnd].
    assert (Hd : description_frame py_float format_1f ticker description =
                 Ok (set_value "ISSUESIZE"
                       (Str (format_1f (a * b / 1000000000)%Q ++ " млрд"))
                       (List.filter kept description))).
    { apply description_frame_ok. by exists a, b. }
    rewrite Hd. eexists. apply instrument_frame_ok. apply unique_NoDup.
    by rewrite !List.map_app, set_value_labels, <- !List.map_app.
Qed.

(** In a frame that is built, the row ISSUESIZE holds the product
    of the issue size and the initial face value of the description, in
    thousands of millions, formatted and followed by the unit; it never
    holds the dash or what the feed gave for the issue size. *)
Theorem info_frame_issue_size (ticker : string)
    (description df_yld df_vol out : list nfo_row) :
  info_frame py_float format_1f ticker description df_yld df_vol = Ok out ->
  exists issuesize initialfacevalue,
    lookup_value py_float description "ISSUESIZE" = Ok issuesize /\
    lookup_value py_float description "INITIALFACEVALUE" = Ok initialfacevalue /\
    delivered "ISSUESIZE" out =
      Str (format_1f (issuesize * initialfacevalue / 1000000000)%Q ++ " млрд").
Proof.
  unfold info_frame. intros H.
  destruct (description_frame py_float format_1f ticker description) as [df|e] eqn:Hd;
    [|discriminate].
  apply description_frame_ok in Hd as (a & b & Ha & Hb & ->).
  exists a, b. split; [exact Ha|]. split; [exact Hb|].
  apply instrument_frame_rows in H. subst out. unfold delivered.
  rewrite (row_of_map _ _ "ISSUESIZE"); [| |cbn; tauto].
  - rewrite <- (lookup_value_kept "ISSUESIZE") in Ha by reflexivity.
    apply lookup_value_ok in Ha.
    destruct (row_of_set_value "ISSUESIZE"
                (Str (format_1f (a * b / 1000000000)%Q ++ " млрд"))
                _ (df_yld ++ df_vol) Ha) as [k ->].
    reflexivity.
  - intros x. by destruct (row_of x _).
Qed.

End DescriptionFacts.

(** Ten million bonds of one thousand: ten thousand millions. *)
Lemma info_frame_issue_size_witness :
  exists issuesize initialfacevalue,
    lookup_value decimal_float example_description "ISSUESIZE" = Ok issuesize /\
    lookup_value decimal_float example_description "INITIALFACEVALUE"
      = Ok initialfacevalue /\
    delivered "ISSUESIZE"
      (built (info_frame decimal_float plain_1f "SU26219RMFS4"
                example_description [] [])) =
      Str (plain_1f (issuesize * initialfacevalue / 1000000000)%Q ++ " млрд").
Proof.
  exact (info_frame_issue_size decimal_float plain_1f "SU26219RMFS4"
           example_description [] []
           (built (info_frame decimal_float plain_1f "SU26219RMFS4"
                     example_description [] []))
           eq_refl).
Defined.
